(** * boost_install.py: a shallow embedding and its verified properties

    The script [scripts/boost_install.py] resolves a handful of strings from
    a Boost version (archive name, URL, destination, extraction directory,
    install prefix) and then drives four effectful stages: download,
    extract, bootstrap, b2.

    Layout of this development:
    - [Py]: the [str] methods the script calls ([replace], [split], ...);
    - [posixpath], [ntpath]: the two implementations behind [os.path], after
      the Python definitions of CPython 3.11, in the parts the script
      reaches ([join], [normpath]);
    - the world the script runs in (OS identity, temp directory, network,
      archive extraction, child processes) and a small trace-and-exception
      monad for the stages;
    - the script's functions, under their own names;
    - the properties.

    A [string] is the sequence of bytes of the Python [str] in UTF-8; the
    characters the script and [os.path] look for (dot, slash, backslash,
    colon) are ASCII, so the two agree on where they occur. *)

From Stdlib Require Import String Ascii List ZArith Bool.
From Stdlib Require Import Lia.
Import ListNotations.
Open Scope list_scope.
Open Scope string_scope.

(** ** Python [str] operations used by the script and by [os.path] *)

Module Py.

(** [s.replace(old, new)] for one-character [old] and [new]. *)
Fixpoint replace (old new : ascii) (s : string) : string :=
  match s with
  | EmptyString => EmptyString
  | String c s' =>
      String (if Ascii.eqb c old then new else c) (replace old new s')
  end.

(** [s.split(sep)] for a one-character [sep]: never empty, [''.split(sep)]
    is [['']]. *)
Fixpoint split (sep : ascii) (s : string) : list string :=
  match s with
  | EmptyString => [EmptyString]
  | String c s' =>
      if Ascii.eqb c sep then EmptyString :: split sep s'
      else match split sep s' with
           | [] => [String c EmptyString]
           | h :: t => String c h :: t
           end
  end.

(** [sep.join(l)]. *)
Definition join (sep : string) (l : list string) : string :=
  String.concat sep l.

(** [s.startswith(p)]. *)
Definition startswith (s p : string) : bool := String.prefix p s.

(** [s[-1:]], the last character of [s] if any. *)
Fixpoint last_char (s : string) : option ascii :=
  match s with
  | EmptyString => None
  | String c EmptyString => Some c
  | String _ s' => last_char s'
  end.

(** [s.endswith(c)] for a one-character [c]. *)
Definition endswith (s : string) (c : ascii) : bool :=
  match last_char s with
  | Some d => Ascii.eqb d c
  | None => false
  end.

(** [s.lstrip(c)] for a one-character [c]. *)
Fixpoint lstrip (c : ascii) (s : string) : string :=
  match s with
  | String d s' => if Ascii.eqb d c then lstrip c s' else s
  | EmptyString => EmptyString
  end.

(** [s.find(c, start)] for a one-character [c]; [None] stands for [-1]. *)
Fixpoint find (c : ascii) (s : string) (start : nat) : option nat :=
  match s, start with
  | EmptyString, _ => None
  | String d s', O =>
      if Ascii.eqb d c then Some O else option_map S (find c s' O)
  | String _ s', S n => option_map S (find c s' n)
  end.

(** [s[:n]] and [s[n:]]. *)
Definition take (n : nat) (s : string) : string := String.substring 0 n s.

Fixpoint drop (n : nat) (s : string) : string :=
  match n, s with
  | O, _ => s
  | S n', String _ s' => drop n' s'
  | S _, EmptyString => EmptyString
  end.

(** [s.lower()] and [s.upper()] on the ASCII letters (drive letters and the
    UNC marker are ASCII). *)
Definition lower_char (c : ascii) : ascii :=
  let n := nat_of_ascii c in
  if andb (Nat.leb 65 n) (Nat.leb n 90) then ascii_of_nat (n + 32) else c.

Definition upper_char (c : ascii) : ascii :=
  let n := nat_of_ascii c in
  if andb (Nat.leb 97 n) (Nat.leb n 122) then ascii_of_nat (n - 32) else c.

Fixpoint upper (s : string) : string :=
  match s with
  | EmptyString => EmptyString
  | String c s' => String (upper_char c) (upper s')
  end.

Fixpoint lower (s : string) : string :=
  match s with
  | EmptyString => EmptyString
  | String c s' => String (lower_char c) (lower s')
  end.

(** [x in s] for a character [x]. *)
Fixpoint mem_char (x : ascii) (s : string) : bool :=
  match s with
  | EmptyString => false
  | String c s' => orb (Ascii.eqb c x) (mem_char x s')
  end.

(** [sub in s] for strings. *)
Fixpoint contains (s sub : string) : bool :=
  orb (String.prefix sub s)
      match s with
      | EmptyString => false
      | String _ s' => contains s' sub
      end.

(** Truthiness of a [str]: [not s] is [is_empty s]. *)
Definition is_empty (s : string) : bool :=
  match s with EmptyString => true | _ => false end.

End Py.

(** ** [os.path] on POSIX: [posixpath] *)

Module posixpath.

Definition sep : ascii := "/"%char.

(** [posixpath.join(a, b)]: an absolute [b] discards [a]; otherwise one
    separator is put between them unless [a] is empty or already ends with
    one. *)
Definition join (a b : string) : string :=
  if Py.startswith b "/" then b
  else if orb (Py.is_empty a) (Py.endswith a sep) then a ++ b
  else a ++ "/" ++ b.

(** One iteration of the [for comp in comps] loop of [normpath];
    [new_comps] is the list built so far, appended to and popped at its
    end. *)
Definition normpath_step (initial_slashes : nat) (new_comps : list string)
    (comp : string) : list string :=
  if orb (Py.is_empty comp) (String.eqb comp ".") then new_comps
  else if orb (negb (String.eqb comp ".."))
         (orb (andb (Nat.eqb initial_slashes 0) (Nat.eqb (List.length new_comps) 0))
              (andb (negb (Nat.eqb (List.length new_comps) 0))
                    (String.eqb (List.last new_comps EmptyString) "..")))
       then (new_comps ++ [comp])%list
  else List.removelast new_comps.

(** The value of [initial_slashes]: 0, 1 or 2 (exactly two leading slashes
    are kept, three or more count as one). *)
Definition initial_slashes (path : string) : nat :=
  if Py.startswith path "/" then
    if andb (Py.startswith path "//") (negb (Py.startswith path "///"))
    then 2 else 1
  else 0.

Fixpoint repeat_sep (n : nat) : string :=
  match n with O => EmptyString | S n' => String sep (repeat_sep n') end.

(** [posixpath.normpath(path)]. *)
Definition normpath (path : string) : string :=
  if Py.is_empty path then "."
  else
    let i := initial_slashes path in
    let comps := Py.split sep path in
    let new_comps := List.fold_left (normpath_step i) comps [] in
    let path' := Py.join "/" new_comps in
    let path'' := if Nat.eqb i 0 then path' else repeat_sep i ++ path' in
    if Py.is_empty path'' then "." else path''.

End posixpath.

(** ** [os.path] on Windows: [ntpath] *)

Module ntpath.

Definition sep : ascii := "\"%char.
Definition altsep : ascii := "/"%char.

(** [c in seps]. *)
Definition is_sep (c : ascii) : bool :=
  orb (Ascii.eqb c sep) (Ascii.eqb c altsep).

(** [s and s[0] in seps]. *)
Definition starts_with_sep (s : string) : bool :=
  match s with
  | String c _ => is_sep c
  | EmptyString => false
  end.

(** [s and s[-1] not in seps]. *)
Definition ends_without_sep (s : string) : bool :=
  match Py.last_char s with
  | Some c => negb (is_sep c)
  | None => false
  end.

Definition unc_prefix : string := "\\?\UNC\".

(** [ntpath.splitdrive(p)]: the drive letter with its colon, or the UNC
    share, and the rest. *)
Definition splitdrive (p : string) : string * string :=
  if Nat.leb 2 (String.length p) then
    let normp := Py.replace altsep sep p in
    if String.eqb (Py.take 2 normp) "\\" then
      let start :=
        if String.eqb (Py.upper (Py.take 8 normp)) unc_prefix then 8 else 2 in
      match Py.find sep normp start with
      | None => (p, EmptyString)
      | Some index =>
          match Py.find sep normp (index + 1) with
          | None => (p, EmptyString)
          | Some index2 => (Py.take index2 p, Py.drop index2 p)
          end
      end
    else if String.eqb (String.substring 1 1 normp) ":" then
      (Py.take 2 p, Py.drop 2 p)
    else (EmptyString, p)
  else (EmptyString, p).

(** The tail of the loop body of [join]: the second path is relative to
    the first. *)
Definition join_relative (result_path p_path : string) : string :=
  (if ends_without_sep result_path then result_path ++ "\" else result_path)
  ++ p_path.

(** [ntpath.join(path, p)]. *)
Definition join (path p : string) : string :=
  let '(result_drive, result_path) := splitdrive path in
  let '(p_drive, p_path) := splitdrive p in
  let '(result_drive, result_path) :=
    if starts_with_sep p_path then
      ((if orb (negb (Py.is_empty p_drive)) (Py.is_empty result_drive)
        then p_drive else result_drive), p_path)
    else if andb (negb (Py.is_empty p_drive))
                 (negb (String.eqb p_drive result_drive)) then
      if negb (String.eqb (Py.lower p_drive) (Py.lower result_drive))
      then (p_drive, p_path)
      else (p_drive, join_relative result_path p_path)
    else (result_drive, join_relative result_path p_path) in
  if andb (andb (negb (Py.is_empty result_path))
                (negb (starts_with_sep result_path)))
          (andb (negb (Py.is_empty result_drive))
                (negb (Py.endswith result_drive ":"%char)))
  then result_drive ++ "\" ++ result_path
  else result_drive ++ result_path.

(** One iteration of the [while i < len(comps)] loop of [normpath].
    [done] is [comps[:i]] and [comp] is [comps[i]]: every iteration either
    deletes [comps[i]] (with [comps[i-1]] for a resolved [..]) or moves [i]
    past it, so the loop is a left fold over the initial [comps]. *)
Definition normpath_step (prefix : string) (done : list string)
    (comp : string) : list string :=
  if orb (Py.is_empty comp) (String.eqb comp ".") then done
  else if String.eqb comp ".." then
    if andb (negb (Nat.eqb (List.length done) 0))
            (negb (String.eqb (List.last done EmptyString) ".."))
    then List.removelast done
    else if andb (Nat.eqb (List.length done) 0) (Py.endswith prefix sep)
    then done
    else (done ++ [comp])%list
  else (done ++ [comp])%list.

(** [ntpath.normpath(path)]. *)
Definition normpath (path : string) : string :=
  let path := Py.replace altsep sep path in
  let '(prefix, path) := splitdrive path in
  let '(prefix, path) :=
    if Py.startswith path "\" then (prefix ++ "\", Py.lstrip sep path)
    else (prefix, path) in
  let comps := List.fold_left (normpath_step prefix) (Py.split sep path) [] in
  let comps :=
    if andb (Py.is_empty prefix) (Nat.eqb (List.length comps) 0)
    then (comps ++ ["."])%list else comps in
  prefix ++ Py.join "\" comps.

End ntpath.

(** ** The world of one run *)

(** [os.name]: the script only asks whether it is ['nt']; [os.path] is
    [ntpath] on ['nt'] and [posixpath] on ['posix']. *)
Inductive OsName : Type := nt | posix.

Module os_path.

Definition join (os : OsName) (a b : string) : string :=
  match os with
  | nt => ntpath.join a b
  | posix => posixpath.join a b
  end.

Definition normpath (os : OsName) (p : string) : string :=
  match os with
  | nt => ntpath.normpath p
  | posix => posixpath.normpath p
  end.

End os_path.

(** The exceptions that reach the script; all derive from [Exception]. *)
Inductive exn : Type :=
| URLError (reason : string)
| OSError (strerror : string)
| ReadError (msg : string)
| CalledProcessError (returncode : Z) (cmd : list string).

(** Everything the script obtains from outside itself.  Each external call
    is made at most once per distinct argument in a run, so an answer per
    argument describes the run.
    - [gettempdir] is the value of [tempfile.gettempdir()], which CPython
      takes from the environment variables TMPDIR, TEMP and TMP before
      falling back to platform directories (a run in which no directory is
      usable ends inside that call and is not described here);
    - [urlopen] answers [urllib.request.urlopen(url)] followed by
      [response.read()]: the body, or the exception raised;
    - [write_file] answers [open(dest, 'wb')] and [out_file.write(data)];
    - [extractall] answers [tarfile.open(file_name)] and
      [tar.extractall(temp_dir)];
    - [spawn] answers the child process of [subprocess.run(cmd, shell=..,
      cwd=..)]: its exit status, or the exception of a failed launch. *)
Record World : Type := {
  os_name : OsName;
  gettempdir : string;
  urlopen : string -> exn + string;
  write_file : string -> string -> option exn;
  extractall : string -> string -> option exn;
  spawn : list string -> bool -> string -> exn + Z
}.

(** What a run does that can be observed from outside. *)
Inductive event : Type :=
| Print (text : string)
| PrintExc (color : string) (e : exn)
| Urlopen (url : string)
| WriteFile (dest data : string)
| Extractall (file_name temp_dir : string)
| Run (cmd : list string) (shell : bool) (cwd : string) (check : bool).

(** ** Computations: a trace of events and a value or a raised exception *)

Definition M (A : Type) : Type := (list event * (exn + A))%type.

Definition ret {A : Type} (a : A) : M A := ([], inr a).

Definition raise {A : Type} (e : exn) : M A := ([], inl e).

Definition bind {A B : Type} (m : M A) (k : A -> M B) : M B :=
  match m with
  | (t, inl e) => (t, inl e)
  | (t, inr a) => let '(t', r) := k a in ((t ++ t')%list, r)
  end.

Definition emit (ev : event) : M unit := ([ev], inr tt).

(** [try: m  except Exception as e: h e]. *)
Definition try_except {A : Type} (m : M A) (h : exn -> M A) : M A :=
  match m with
  | (t, inl e) => let '(t', r) := h e in ((t ++ t')%list, r)
  | (t, inr a) => (t, inr a)
  end.

Definition trace {A : Type} (m : M A) : list event := fst m.
Definition outcome {A : Type} (m : M A) : exn + A := snd m.

Declare Scope run_scope.
Delimit Scope run_scope with run.
Notation "x <- m ;; k" := (bind m (fun x => k))
  (at level 61, m at next level, right associativity) : run_scope.
Notation "' pat <- m ;; k" := (bind m (fun x => match x with pat => k end))
  (at level 61, pat pattern, m at next level, right associativity)
  : run_scope.
Notation "m ;; k" := (bind m (fun _ => k))
  (at level 61, right associativity) : run_scope.
Open Scope run_scope.

(** Lifting the world's answers. *)
Definition of_option (o : option exn) : M unit :=
  match o with
  | Some e => raise e
  | None => ret tt
  end.

Definition of_sum {A : Type} (r : exn + A) : M A :=
  match r with
  | inl e => raise e
  | inr a => ret a
  end.

(** ** Library calls with effects *)

Definition nl : string := String (Ascii.ascii_of_nat 10) EmptyString.
Definition esc : string := String (Ascii.ascii_of_nat 27) EmptyString.

(** [colorama.Fore.GREEN] and [colorama.Fore.RED]. *)
Definition Fore_GREEN : string := esc ++ "[32m".
Definition Fore_RED : string := esc ++ "[31m".

(** [print(s, end=e)]; [print(s)] has [e = nl]. *)
Definition print (s e : string) : M unit := emit (Print (s ++ e)).

(** [subprocess.run(cmd, shell=shell, cwd=cwd, check=check)]: the child is
    waited for, and only [check] turns a nonzero exit status into
    [CalledProcessError]. *)
Definition subprocess_run (w : World) (cmd : list string)
    (shell check : bool) (cwd : string) : M Z :=
  emit (Run cmd shell cwd check) ;;
  retcode <- of_sum (spawn w cmd shell cwd) ;;
  if andb check (negb (Z.eqb retcode 0))
  then raise (CalledProcessError retcode cmd)
  else ret retcode.

(** What [subprocess.Popen] executes on POSIX: with [shell=True] the list is
    appended to [/bin/sh -c], so its first item is the command string and
    the other items are arguments of the shell itself. *)
Definition posix_exec_args (shell : bool) (cmd : list string) : list string :=
  if shell then "/bin/sh" :: "-c" :: cmd else cmd.

(** [sh -c command_string [command_name [argument...]]]: the operand after
    [-c] is the text the shell runs, the next one is its [$0], the others
    its positional parameters. *)
Record sh_invocation : Type := {
  command_string : string;
  command_name : option string;
  positional : list string
}.

Definition sh_c (argv : list string) : option sh_invocation :=
  match argv with
  | _ :: "-c" :: s :: rest =>
      Some {| command_string := s;
              command_name := List.hd_error rest;
              positional := List.tl rest |}
  | _ => None
  end.

(** ** The script *)

(** The namespace [parser.parse_args()] returns: [-v/--version] is
    required, [-p/--path] is [None] when absent. *)
Record Namespace : Type := {
  args_version : string;
  args_path : option string
}.

Definition metainfo (w : World) (args : Namespace)
  : M (string * string * string * string) :=
  let version_with_dots := args_version args ++ ".0" in
  let version_with_underscore := Py.replace "." "_" version_with_dots in
  let temp_dir := gettempdir w in
  print (Fore_GREEN ++ "Temp directory: ") EmptyString ;;
  print temp_dir nl ;;
  let archive_name := "boost_" ++ version_with_underscore ++ ".tar.gz" in
  let file_name := os_path.join (os_name w) temp_dir archive_name in
  let url := "https://boostorg.jfrog.io/artifactory/main/release/" ++
             version_with_dots ++ "/source/" ++ archive_name in
  ret (version_with_dots, temp_dir, url, file_name).

Definition download (w : World) (url dest : string) : M unit :=
  print (Fore_GREEN ++ "Downloading: ") EmptyString ;;
  print (url ++ " into " ++ dest) nl ;;
  emit (Urlopen url) ;;
  data <- of_sum (urlopen w url) ;;
  emit (WriteFile dest data) ;;
  of_option (write_file w dest data).

Definition extract (w : World) (temp_dir file_name : string) : M string :=
  print (Fore_GREEN ++ "Extracting: ") EmptyString ;;
  let dir_name := List.hd EmptyString (Py.split "." file_name) in
  print dir_name nl ;;
  emit (Extractall file_name temp_dir) ;;
  of_option (extractall w file_name temp_dir) ;;
  ret (os_path.join (os_name w) temp_dir dir_name).

(** [not path] holds for [None] and for the empty string. *)
Definition not_path (path : option string) : bool :=
  match path with
  | None => true
  | Some s => Py.is_empty s
  end.

Definition get_prefix (w : World) (path : option string) (version : string)
  : M string :=
  let path :=
    if not_path path then
      match os_name w with
      | nt => "C:\boost\boost_" ++ version
      | posix => "/usr/local/boost_" ++ version
      end
    else match path with Some s => s | None => EmptyString end in
  let prefix_path := os_path.normpath (os_name w) path in
  print (Fore_GREEN ++ "Install path: ") EmptyString ;;
  print prefix_path nl ;;
  ret ("--prefix=" ++ prefix_path).

(** The list [cmd] of [bootstrap], after [cmd.append(prefix_arg)]. *)
Definition bootstrap_cmd (os : OsName) (prefix_arg : string) : list string :=
  let cmd :=
    match os with
    | nt => ["bootstrap.bat"]
    | posix => ["./bootstrap.sh"]
    end in
  (cmd ++ [prefix_arg])%list.

Definition bootstrap (w : World) (prefix_arg extract_directory : string)
  : M unit :=
  let cmd := bootstrap_cmd (os_name w) prefix_arg in
  print (Fore_GREEN ++ "Bootstrap command: ") EmptyString ;;
  print (Py.join " " cmd) nl ;;
  subprocess_run w cmd true false extract_directory ;;
  ret tt.

(** The list [cmd] of [b2]. *)
Definition b2_cmd (os : OsName) (prefix_arg : string) : list string :=
  match os with
  | nt => ["b2.exe"; "install"; prefix_arg; "-j 8"]
  | posix => ["sudo"; "./b2"; "install"; prefix_arg; "-j 8"]
  end.

(** The keyword arguments [shell] and [check] that [b2] adds to [cwd]:
    [shell=True] on Windows, [check=True] elsewhere. *)
Definition b2_shell (os : OsName) : bool :=
  match os with nt => true | posix => false end.

Definition b2_check (os : OsName) : bool :=
  match os with nt => false | posix => true end.

Definition b2 (w : World) (prefix_arg extract_directory : string) : M unit :=
  let cmd := b2_cmd (os_name w) prefix_arg in
  print (Fore_GREEN ++ "Build command: ") EmptyString ;;
  print (Py.join " " cmd) nl ;;
  subprocess_run w cmd (b2_shell (os_name w)) (b2_check (os_name w))
    extract_directory ;;
  ret tt.

Definition process (w : World) (args : Namespace) : M unit :=
  '(version, temp_dir, url, file_name) <- metainfo w args ;;
  download w url file_name ;;
  extract_directory <- extract w temp_dir file_name ;;
  prefix_arg <- get_prefix w (args_path args) version ;;
  bootstrap w prefix_arg extract_directory ;;
  b2 w prefix_arg extract_directory.

(** [main()], with [args] the result of [parser.parse_args()]. *)
Definition main (w : World) (args : Namespace) : M unit :=
  process w args.

(** The [if __name__ == '__main__'] block: [init(autoreset=True)] prints
    nothing; any [Exception] of [main()] is reported and swallowed. *)
Definition script (w : World) (args : Namespace) : M unit :=
  try_except (main w args)
    (fun e => print "Error: " EmptyString ;; emit (PrintExc Fore_RED e)).

(** ** Notions used in the statements *)

(** The statements of [process] up to the build: what they hand to
    [bootstrap] and [b2]. *)
Definition prepare (w : World) (args : Namespace) : M (string * string) :=
  '(version, temp_dir, url, file_name) <- metainfo w args ;;
  download w url file_name ;;
  extract_directory <- extract w temp_dir file_name ;;
  prefix_arg <- get_prefix w (args_path args) version ;;
  ret (prefix_arg, extract_directory).

(** The values of the local variables [version_with_dots], [archive_name],
    [url] and [file_name] of [metainfo], by the version given. *)
Definition version_with_dots (version : string) : string := version ++ ".0".

Definition archive_name (version : string) : string :=
  "boost_" ++ Py.replace "." "_" (version_with_dots version) ++ ".tar.gz".

Definition url_of (version : string) : string :=
  "https://boostorg.jfrog.io/artifactory/main" ++ "/release/" ++
  version_with_dots version ++ "/source/" ++ archive_name version.

Definition file_name_of (w : World) (version : string) : string :=
  os_path.join (os_name w) (gettempdir w) (archive_name version).

(** The value of the local variable [dir_name] of [extract]. *)
Definition dir_name_of (file_name : string) : string :=
  List.hd EmptyString (Py.split "." file_name).

(** The default install path of [get_prefix], before normalization. *)
Definition default_path (os : OsName) (version : string) : string :=
  match os with
  | nt => "C:\boost\boost_" ++ version
  | posix => "/usr/local/boost_" ++ version
  end.

(** [version] holds no path separator of the platform. *)
Definition sep_free (os : OsName) (version : string) : bool :=
  match os with
  | nt => andb (negb (Py.mem_char "\" version)) (negb (Py.mem_char "/" version))
  | posix => negb (Py.mem_char "/" version)
  end.

(** [c] twice. *)
Definition doubled (c : ascii) : string := String c (String c EmptyString).

(** A component kept by normalization: not empty, and made of characters
    allowed by [R]. *)
Definition kept (R : string -> Prop) (comp : string) : Prop :=
  Py.is_empty comp = false /\ R comp.

(** [normalized] holds no run of separators: on POSIX past its first
    character (two leading slashes are kept as they are), on Windows past
    the drive of [path], where no forward slash is left either. *)
Definition separators_collapsed (os : OsName) (path normalized : string)
  : Prop :=
  match os with
  | posix => Py.contains (Py.drop 1 normalized) "//" = false
  | nt =>
      exists tail,
        normalized = fst (ntpath.splitdrive (Py.replace "/" "\" path)) ++ tail /\
        Py.contains tail "\\" = false /\
        Py.mem_char "/" tail = false
  end.


(** ** The external calls of a run *)

(** The prefix argument [get_prefix] resolves from [args.path] and the
    resolved version. *)
Definition prefix_arg_of (os : OsName) (path : option string)
    (version : string) : string :=
  "--prefix=" ++
  os_path.normpath os
    (if not_path path then default_path os version
     else match path with Some s => s | None => EmptyString end).

(** The calls [process] makes outside the interpreter when none of them
    raises, in the order of its statements and with their arguments: the
    fetch, the write of what was fetched, the extraction, the bootstrap
    child and the b2 child. *)
Definition plan (w : World) (args : Namespace) : list event :=
  let version := args_version args in
  let file_name := file_name_of w version in
  let data :=
    match urlopen w (url_of version) with
    | inr d => d
    | inl _ => EmptyString
    end in
  let extract_directory :=
    os_path.join (os_name w) (gettempdir w) (dir_name_of file_name) in
  let prefix_arg :=
    prefix_arg_of (os_name w) (args_path args) (version_with_dots version) in
  [Urlopen (url_of version);
   WriteFile file_name data;
   Extractall file_name (gettempdir w);
   Run (bootstrap_cmd (os_name w) prefix_arg) true extract_directory false;
   Run (b2_cmd (os_name w) prefix_arg) (b2_shell (os_name w))
     extract_directory (b2_check (os_name w))].

(** How many of the planned calls are made: up to and including the first
    one that raises. *)
Definition reached (w : World) (args : Namespace) : nat :=
  let version := args_version args in
  let file_name := file_name_of w version in
  match urlopen w (url_of version) with
  | inl _ => 1
  | inr data =>
      match write_file w file_name data with
      | Some _ => 2
      | None =>
          match extractall w file_name (gettempdir w) with
          | Some _ => 3
          | None =>
              match spawn w
                      (bootstrap_cmd (os_name w)
                         (prefix_arg_of (os_name w) (args_path args)
                            (version_with_dots version)))
                      true
                      (os_path.join (os_name w) (gettempdir w)
                         (dir_name_of file_name)) with
              | inl _ => 4
              | inr _ => 5
              end
          end
      end
  end.

(** The events of a trace other than what is printed. *)
Definition is_print (ev : event) : bool :=
  match ev with
  | Print _ | PrintExc _ _ => true
  | _ => false
  end.

Definition externals (t : list event) : list event :=
  List.filter (fun ev => negb (is_print ev)) t.

(** ** Concrete worlds and arguments *)

(** A run in which the network and both child processes answer as given:
    [fetch] is what [urlopen] does for every URL, [exits] the exit status
    of a command by its first word. *)
Definition world_of (os : OsName) (tempdir : string) (fetch : exn + string)
    (exits : string -> Z) : World :=
  {| os_name := os;
     gettempdir := tempdir;
     urlopen := fun _ => fetch;
     write_file := fun _ _ => None;
     extractall := fun _ _ => None;
     spawn := fun cmd _ _ => inr (exits (List.hd EmptyString cmd)) |}.

(** Everything succeeds. *)
Definition calm (os : OsName) (tempdir : string) : World :=
  world_of os tempdir (inr "tarball") (fun _ => 0%Z).

Definition args_1_76 : Namespace :=
  {| args_version := "1.76"; args_path := None |}.

(** ** Normal forms of POSIX paths *)

(** A component that [posixpath.normpath] keeps: not empty, without
    separator, and not [.]. *)
Definition plain (comp : string) : Prop :=
  Py.is_empty comp = false /\ Py.mem_char "/" comp = false /\ comp <> ".".

(** On a stack of components, last one first: under a [..] there are only
    [..], that is, in path order every [..] is among the leading
    components. *)
Fixpoint dotdots_below (st : list string) : Prop :=
  match st with
  | [] => True
  | c :: st' => (c = ".." -> Forall (fun d => d = "..") st') /\ dotdots_below st'
  end.

(** The component lists [normpath] produces for a path with [i] initial
    slashes: plain components, [..] only leading, and none at all under a
    root. *)
Definition normal_comps (i : nat) (comps : list string) : Prop :=
  Forall plain comps /\
  dotdots_below (rev comps) /\
  (i <> 0 -> ~ In ".." comps).

(** A run in which every answer of the world is given; the two child
    processes are told apart by the first word of their command. *)
Definition is_bootstrap (cmd : list string) : bool :=
  match cmd with
  | c :: _ => orb (String.eqb c "./bootstrap.sh") (String.eqb c "bootstrap.bat")
  | [] => false
  end.

Definition world_with (os : OsName) (tempdir : string) (fetch : exn + string)
    (write unpack : option exn) (boot build : exn + Z) : World :=
  {| os_name := os;
     gettempdir := tempdir;
     urlopen := fun _ => fetch;
     write_file := fun _ _ => write;
     extractall := fun _ _ => unpack;
     spawn := fun cmd _ _ => if is_bootstrap cmd then boot else build |}.

(** * Properties *)

(** ** The library models on concrete inputs

    The values are those CPython returns. *)

Example posixpath_normpath_examples :
  posixpath.normpath "/usr//local/./x/../boost" = "/usr/local/boost" /\
  posixpath.normpath "//a///b/" = "//a/b" /\
  posixpath.normpath "///a" = "/a" /\
  posixpath.normpath "../../a/.." = "../.." /\
  posixpath.normpath "/.." = "/" /\
  posixpath.normpath "a/.." = "." /\
  posixpath.normpath EmptyString = ".".
Proof. repeat split. Qed.

Example posixpath_join_examples :
  posixpath.join "/tmp" "boost_1_76_0.tar.gz" = "/tmp/boost_1_76_0.tar.gz" /\
  posixpath.join "/tmp/" "x" = "/tmp/x" /\
  posixpath.join "/tmp" "/abs" = "/abs" /\
  posixpath.join EmptyString "x" = "x".
Proof. repeat split. Qed.

Example ntpath_normpath_examples :
  ntpath.normpath "C:\Boost\\x" = "C:\Boost\x" /\
  ntpath.normpath "C:/a/../.." = "C:\" /\
  ntpath.normpath "\\server\share\\x\.." = "\\server\share\" /\
  ntpath.normpath "a\.." = "." /\
  ntpath.normpath "C:..\x" = "C:..\x" /\
  ntpath.normpath "\\\a" = "\\\a".
Proof. repeat split. Qed.

Example ntpath_splitdrive_examples :
  ntpath.splitdrive "C:\Boost\\x" = ("C:", "\Boost\\x") /\
  ntpath.splitdrive "\\server\share\\x\.." = ("\\server\share", "\\x\..") /\
  ntpath.splitdrive "a\.." = (EmptyString, "a\..").
Proof. repeat split. Qed.

Example ntpath_join_examples :
  ntpath.join "C:\Temp" "boost_1_76_0.tar.gz" = "C:\Temp\boost_1_76_0.tar.gz" /\
  ntpath.join "C:\Temp" "C:\Users\john" = "C:\Users\john" /\
  ntpath.join "C:\a" "c:b" = "c:\a\b" /\
  ntpath.join "C:\a" "D:b" = "D:b" /\
  ntpath.join "\\srv\share" "x" = "\\srv\share\x" /\
  ntpath.join "C:" "x" = "C:x".
Proof. repeat split. Qed.

Example split_examples :
  Py.split "." "/tmp/boost_1_76_0.tar.gz" = ["/tmp/boost_1_76_0"; "tar"; "gz"] /\
  Py.split "." EmptyString = [EmptyString] /\
  Py.split "." "a..b." = ["a"; EmptyString; "b"; EmptyString].
Proof. repeat split. Qed.

(** The whole run for version 1.76 without a path on Linux, every external
    call succeeding. *)
Example script_1_76_posix :
  script (calm posix "/tmp") args_1_76 =
  ([Print (Fore_GREEN ++ "Temp directory: ");
    Print ("/tmp" ++ nl);
    Print (Fore_GREEN ++ "Downloading: ");
    Print ("https://boostorg.jfrog.io/artifactory/main/release/1.76.0/source/boost_1_76_0.tar.gz into /tmp/boost_1_76_0.tar.gz" ++ nl);
    Urlopen "https://boostorg.jfrog.io/artifactory/main/release/1.76.0/source/boost_1_76_0.tar.gz";
    WriteFile "/tmp/boost_1_76_0.tar.gz" "tarball";
    Print (Fore_GREEN ++ "Extracting: ");
    Print ("/tmp/boost_1_76_0" ++ nl);
    Extractall "/tmp/boost_1_76_0.tar.gz" "/tmp";
    Print (Fore_GREEN ++ "Install path: ");
    Print ("/usr/local/boost_1.76.0" ++ nl);
    Print (Fore_GREEN ++ "Bootstrap command: ");
    Print ("./bootstrap.sh --prefix=/usr/local/boost_1.76.0" ++ nl);
    Run ["./bootstrap.sh"; "--prefix=/usr/local/boost_1.76.0"] true
      "/tmp/boost_1_76_0" false;
    Print (Fore_GREEN ++ "Build command: ");
    Print ("sudo ./b2 install --prefix=/usr/local/boost_1.76.0 -j 8" ++ nl);
    Run ["sudo"; "./b2"; "install"; "--prefix=/usr/local/boost_1.76.0"; "-j 8"]
      false "/tmp/boost_1_76_0" true],
   inr tt).
Proof. reflexivity. Qed.

(** ** Strings *)

Lemma append_assoc (a b c : string) : (a ++ b) ++ c = a ++ (b ++ c).
Proof. induction a as [|x a IH]; simpl; [reflexivity | now rewrite IH]. Qed.

Lemma append_empty_r (a : string) : a ++ EmptyString = a.
Proof. induction a as [|x a IH]; simpl; [reflexivity | now rewrite IH]. Qed.

Lemma mem_char_app (c : ascii) (a b : string) :
  Py.mem_char c (a ++ b) = orb (Py.mem_char c a) (Py.mem_char c b).
Proof.
  induction a as [|x a IH]; simpl; [reflexivity|].
  rewrite IH. now rewrite orb_assoc.
Qed.

Lemma replace_app (old new : ascii) (a b : string) :
  Py.replace old new (a ++ b) = Py.replace old new a ++ Py.replace old new b.
Proof. induction a as [|x a IH]; simpl; [reflexivity | now rewrite IH]. Qed.

Lemma replace_absent (old new : ascii) (s : string) :
  Py.mem_char old s = false -> Py.replace old new s = s.
Proof.
  induction s as [|x s IH]; simpl; [reflexivity|].
  intros H. apply orb_false_elim in H as [Hx Hs].
  rewrite Hx, (IH Hs). reflexivity.
Qed.

(** After [replace(old, new)] no [old] is left, when [new] differs. *)
Lemma replace_removes (old new : ascii) (s : string) :
  old <> new -> Py.mem_char old (Py.replace old new s) = false.
Proof.
  intros Hne. induction s as [|x s IH]; simpl; [reflexivity|].
  rewrite IH, orb_false_r.
  destruct (Ascii.eqb x old) eqn:E; [|exact E].
  apply Ascii.eqb_neq. congruence.
Qed.

Lemma split_not_nil (sep : ascii) (s : string) : Py.split sep s <> [].
Proof.
  destruct s as [|x s]; simpl; [discriminate|].
  destruct (Ascii.eqb x sep); [discriminate|].
  destruct (Py.split sep s); discriminate.
Qed.

Lemma split_absent (sep : ascii) (s : string) :
  Py.mem_char sep s = false -> Py.split sep s = [s].
Proof.
  induction s as [|x s IH]; simpl; [reflexivity|].
  intros H. apply orb_false_elim in H as [Hx Hs].
  rewrite Hx, (IH Hs). reflexivity.
Qed.

(** Splitting at the first separator. *)
Lemma split_app_sep (sep : ascii) (a b : string) :
  Py.mem_char sep a = false ->
  Py.split sep (a ++ String sep b) = a :: Py.split sep b.
Proof.
  induction a as [|x a IH]; simpl.
  - intros _. now rewrite Ascii.eqb_refl.
  - intros H. apply orb_false_elim in H as [Hx Ha].
    rewrite Hx, (IH Ha). reflexivity.
Qed.

(** The pieces of a split hold no separator. *)
Lemma split_pieces (sep : ascii) (s : string) :
  Forall (fun c => Py.mem_char sep c = false) (Py.split sep s).
Proof.
  induction s as [|x s IH]; simpl.
  - repeat constructor.
  - destruct (Ascii.eqb x sep) eqn:E.
    + constructor; [reflexivity | exact IH].
    + destruct (Py.split sep s) as [|h t]; inversion IH; subst.
      * repeat constructor. simpl. now rewrite E.
      * constructor; [|assumption]. simpl. now rewrite E.
Qed.

(** [sep.join(s.split(sep)) == s]. *)
Lemma join_split (sep : ascii) (s : string) :
  Py.join (String sep EmptyString) (Py.split sep s) = s.
Proof.
  unfold Py.join. induction s as [|x s IH]; simpl; [reflexivity|].
  destruct (Ascii.eqb x sep) eqn:E.
  - apply Ascii.eqb_eq in E. subst x.
    pose proof (split_not_nil sep s) as Hn.
    destruct (Py.split sep s) as [|h t]; [congruence|].
    simpl. f_equal. exact IH.
  - pose proof (split_not_nil sep s) as Hn.
    destruct (Py.split sep s) as [|h t]; [congruence|].
    destruct t as [|h' t]; simpl in *; now rewrite <- IH.
Qed.


Lemma prefix_empty (s : string) : String.prefix EmptyString s = true.
Proof. now destruct s. Qed.

Lemma prefix_cons (a b : ascii) (s1 s2 : string) :
  String.prefix (String a s1) (String b s2) =
  if Ascii.eqb a b then String.prefix s1 s2 else false.
Proof.
  simpl. destruct (ascii_dec a b) as [->|Hne].
  - now rewrite Ascii.eqb_refl.
  - apply Ascii.eqb_neq in Hne. now rewrite Hne.
Qed.

Lemma startswith_head (c : ascii) (s : string) :
  Py.startswith (String c s) (String c EmptyString) = true.
Proof.
  unfold Py.startswith. now rewrite prefix_cons, Ascii.eqb_refl, prefix_empty.
Qed.




(** ** Computations *)

Lemma outcome_bind {A B : Type} (m : M A) (k : A -> M B) :
  outcome (bind m k) =
  match outcome m with
  | inl e => inl e
  | inr a => outcome (k a)
  end.
Proof.
  destruct m as [t [e|a]]; [reflexivity|].
  unfold bind, outcome. cbn. now destruct (k a).
Qed.

Lemma trace_bind {A B : Type} (m : M A) (k : A -> M B) :
  trace (bind m k) =
  (trace m ++ match outcome m with
              | inl _ => []
              | inr a => trace (k a)
              end)%list.
Proof.
  destruct m as [t [e|a]]; cbn; [now rewrite app_nil_r|].
  unfold bind, trace. cbn. now destruct (k a).
Qed.

(** ** The stages as equations *)

Lemma metainfo_eq (w : World) (args : Namespace) :
  metainfo w args =
  ([Print (Fore_GREEN ++ "Temp directory: "); Print (gettempdir w ++ nl)],
   inr (version_with_dots (args_version args), gettempdir w,
        url_of (args_version args), file_name_of w (args_version args))).
Proof. reflexivity. Qed.

Lemma download_eq (w : World) (url dest : string) :
  download w url dest =
  let head := [Print (Fore_GREEN ++ "Downloading: ");
               Print ((url ++ " into " ++ dest) ++ nl); Urlopen url] in
  match urlopen w url with
  | inl e => (head, inl e)
  | inr data =>
      ((head ++ [WriteFile dest data])%list,
       match write_file w dest data with
       | Some e => inl e
       | None => inr tt
       end)
  end.
Proof.
  unfold download. destruct (urlopen w url) as [e|data]; [reflexivity|].
  cbn. destruct (write_file w dest data); reflexivity.
Qed.

Lemma extract_eq (w : World) (temp_dir file_name : string) :
  extract w temp_dir file_name =
  ([Print (Fore_GREEN ++ "Extracting: ");
    Print (dir_name_of file_name ++ nl);
    Extractall file_name temp_dir],
   match extractall w file_name temp_dir with
   | Some e => inl e
   | None => inr (os_path.join (os_name w) temp_dir (dir_name_of file_name))
   end).
Proof.
  unfold extract. cbn [print emit bind app].
  destruct (extractall w file_name temp_dir); reflexivity.
Qed.

Lemma get_prefix_eq (w : World) (path : option string) (version : string) :
  get_prefix w path version =
  let prefix_path :=
    os_path.normpath (os_name w)
      (if not_path path then default_path (os_name w) version
       else match path with Some s => s | None => EmptyString end) in
  ([Print (Fore_GREEN ++ "Install path: "); Print (prefix_path ++ nl)],
   inr ("--prefix=" ++ prefix_path)).
Proof. reflexivity. Qed.

Lemma subprocess_run_eq (w : World) (cmd : list string) (shell check : bool)
    (cwd : string) :
  subprocess_run w cmd shell check cwd =
  ([Run cmd shell cwd check],
   match spawn w cmd shell cwd with
   | inl e => inl e
   | inr retcode =>
       if andb check (negb (Z.eqb retcode 0))
       then inl (CalledProcessError retcode cmd)
       else inr retcode
   end).
Proof.
  unfold subprocess_run. cbn [emit bind app].
  destruct (spawn w cmd shell cwd) as [e|c]; [reflexivity|].
  cbn. destruct (andb check (negb (Z.eqb c 0))); reflexivity.
Qed.

Lemma bootstrap_eq (w : World) (prefix_arg extract_directory : string) :
  bootstrap w prefix_arg extract_directory =
  let cmd := bootstrap_cmd (os_name w) prefix_arg in
  ([Print (Fore_GREEN ++ "Bootstrap command: ");
    Print (Py.join " " cmd ++ nl);
    Run cmd true extract_directory false],
   match spawn w cmd true extract_directory with
   | inl e => inl e
   | inr _ => inr tt
   end).
Proof.
  unfold bootstrap. rewrite subprocess_run_eq. cbn [print emit bind app andb].
  destruct (spawn w _ true extract_directory); reflexivity.
Qed.

Lemma b2_eq (w : World) (prefix_arg extract_directory : string) :
  b2 w prefix_arg extract_directory =
  let cmd := b2_cmd (os_name w) prefix_arg in
  ([Print (Fore_GREEN ++ "Build command: ");
    Print (Py.join " " cmd ++ nl);
    Run cmd (b2_shell (os_name w)) extract_directory (b2_check (os_name w))],
   match spawn w cmd (b2_shell (os_name w)) extract_directory with
   | inl e => inl e
   | inr retcode =>
       if andb (b2_check (os_name w)) (negb (Z.eqb retcode 0))
       then inl (CalledProcessError retcode cmd)
       else inr tt
   end).
Proof.
  unfold b2. rewrite subprocess_run_eq. cbn [print emit bind app].
  destruct (spawn w _ _ extract_directory) as [e|c]; [reflexivity|].
  destruct (andb _ _); reflexivity.
Qed.

(** [process] is [prepare] followed by the two build stages. *)
Lemma process_prepare (w : World) (args : Namespace) :
  process w args =
  ('(prefix_arg, extract_directory) <- prepare w args ;;
   bootstrap w prefix_arg extract_directory ;;
   b2 w prefix_arg extract_directory).
Proof.
  unfold process, prepare. rewrite metainfo_eq. cbn [bind].
  rewrite download_eq. cbv zeta.
  destruct (urlopen w _) as [e|data]; [reflexivity|].
  destruct (write_file w _ data); [reflexivity|].
  cbn [bind]. rewrite extract_eq.
  destruct (extractall w _ _); [reflexivity|].
  cbn [bind]. rewrite get_prefix_eq. cbv zeta. cbn [bind ret].
  rewrite bootstrap_eq, b2_eq. cbv zeta.
  destruct (spawn w _ true _) as [e|c1]; [reflexivity|].
  cbn [bind]. rewrite !app_nil_r, <- !app_assoc. reflexivity.
Qed.

(** What [prepare] hands on, by the answers of the world. *)
Lemma prepare_outcome (w : World) (args : Namespace) :
  outcome (prepare w args) =
  let version := args_version args in
  match urlopen w (url_of version) with
  | inl e => inl e
  | inr data =>
      match write_file w (file_name_of w version) data with
      | Some e => inl e
      | None =>
          match extractall w (file_name_of w version) (gettempdir w) with
          | Some e => inl e
          | None =>
              match outcome (get_prefix w (args_path args)
                               (version_with_dots version)) with
              | inl e => inl e
              | inr prefix_arg =>
                  inr (prefix_arg,
                       os_path.join (os_name w) (gettempdir w)
                         (dir_name_of (file_name_of w version)))
              end
          end
      end
  end.
Proof.
  unfold prepare. rewrite metainfo_eq. cbn [bind].
  rewrite download_eq. cbv zeta.
  destruct (urlopen w _) as [e|data]; [reflexivity|].
  destruct (write_file w _ data); [reflexivity|].
  cbn [bind]. rewrite extract_eq.
  destruct (extractall w _ _); reflexivity.
Qed.

(** ** Metadata resolution *)

(** C1. For a version [V] of two dot-separated components [major] and
    [minor], [metainfo] names the archive
    ['boost_' + major + '_' + minor + '_0' + '.tar.gz'], which is ['boost_'],
    then [V + '.0'] with every dot turned into an underscore, then
    ['.tar.gz'], and resolves the URL to the fixed host, ['/release/'],
    [V + '.0'] with its dots kept, ['/source/'] and that archive name. *)
Theorem C1_metainfo_archive_and_url (w : World) (V major minor : string)
    (p : option string) (Htwo : Py.split "." V = [major; minor]) :
  V = major ++ "." ++ minor /\
  archive_name V = "boost_" ++ (major ++ "_" ++ minor ++ "_0") ++ ".tar.gz" /\
  Py.mem_char "." (major ++ "_" ++ minor ++ "_0") = false /\
  outcome (metainfo w {| args_version := V; args_path := p |}) =
    inr (V ++ ".0", gettempdir w,
         "https://boostorg.jfrog.io/artifactory/main" ++ "/release/" ++
           (major ++ "." ++ minor ++ ".0") ++ "/source/" ++
           ("boost_" ++ (major ++ "_" ++ minor ++ "_0") ++ ".tar.gz"),
         os_path.join (os_name w) (gettempdir w)
           ("boost_" ++ (major ++ "_" ++ minor ++ "_0") ++ ".tar.gz")).
Proof.
  assert (HV : V = major ++ "." ++ minor).
  { rewrite <- (join_split "." V), Htwo. reflexivity. }
  pose proof (split_pieces "." V) as Hp. rewrite Htwo in Hp.
  inversion Hp as [|? ? Hmajor Hp']; subst.
  inversion Hp' as [|? ? Hminor _]; subst.
  assert (Hrep : Py.replace "." "_" (version_with_dots (major ++ "." ++ minor))
                 = major ++ "_" ++ minor ++ "_0").
  { unfold version_with_dots. rewrite append_assoc, !replace_app.
    rewrite (replace_absent _ _ major Hmajor), (replace_absent _ _ minor Hminor).
    reflexivity. }
  assert (Harch : archive_name (major ++ "." ++ minor)
                  = "boost_" ++ (major ++ "_" ++ minor ++ "_0") ++ ".tar.gz").
  { unfold archive_name. now rewrite Hrep. }
  split; [reflexivity|]. split; [exact Harch|]. split.
  - rewrite <- Hrep. apply replace_removes. discriminate.
  - rewrite metainfo_eq. cbn [outcome snd args_version].
    unfold url_of, file_name_of. rewrite Harch.
    unfold version_with_dots. rewrite !append_assoc. reflexivity.
Qed.

Lemma C1_metainfo_archive_and_url_witness :
  Py.split "." "1.76" = ["1"; "76"] /\
  outcome (metainfo (calm posix "/tmp") args_1_76) =
    inr ("1.76.0", "/tmp",
         "https://boostorg.jfrog.io/artifactory/main/release/1.76.0/source/boost_1_76_0.tar.gz",
         "/tmp/boost_1_76_0.tar.gz").
Proof.
  split; [reflexivity|].
  exact (proj2 (proj2 (proj2
    (C1_metainfo_archive_and_url (calm posix "/tmp") "1.76" "1" "76" None
       eq_refl)))).
Defined.

(** C9. [metainfo] raises for no version string, well-formed or not: it
    always returns the four derived strings, having only printed.  When the
    URL it built cannot be fetched, the exception is the one of the fetch
    stage of [process]. *)
Theorem C9_metainfo_never_raises (w : World) (args : Namespace) :
  outcome (metainfo w args) =
    inr (args_version args ++ ".0", gettempdir w,
         url_of (args_version args), file_name_of w (args_version args)) /\
  Forall (fun ev => exists text, ev = Print text) (trace (metainfo w args)) /\
  (forall e, urlopen w (url_of (args_version args)) = inl e ->
             outcome (process w args) = inl e /\
             In (Urlopen (url_of (args_version args))) (trace (process w args))).
Proof.
  rewrite metainfo_eq. split; [reflexivity|]. split.
  - cbn [trace fst]. repeat constructor; eexists; reflexivity.
  - intros e He. unfold process. rewrite metainfo_eq. cbn [bind].
    rewrite download_eq, He. cbv zeta. cbn [bind outcome trace fst snd].
    split; [reflexivity|]. cbn. tauto.
Qed.

Lemma C9_metainfo_never_raises_witness :
  outcome (process (world_of posix "/tmp" (inl (URLError "unknown url type"))
                      (fun _ => 0%Z))
             {| args_version := "not a version"; args_path := None |}) =
    inl (URLError "unknown url type").
Proof.
  exact (proj1 (proj2 (proj2
    (C9_metainfo_never_raises
       (world_of posix "/tmp" (inl (URLError "unknown url type"))
          (fun _ => 0%Z))
       {| args_version := "not a version"; args_path := None |}))
    (URLError "unknown url type") eq_refl)).
Defined.

(** ** Failures *)

Lemma script_eq (w : World) (args : Namespace) :
  script w args =
  match outcome (process w args) with
  | inl e =>
      ((trace (process w args) ++ [Print "Error: "; PrintExc Fore_RED e])%list,
       inr tt)
  | inr _ => (trace (process w args), inr tt)
  end.
Proof.
  unfold script, main, try_except, outcome, trace.
  destruct (process w args) as [t [e|[]]]; reflexivity.
Qed.



(** ** Exit statuses of the build stages *)

(** C4. Once the stages before the build have succeeded and both child
    processes were launched, with exit statuses [c1] for bootstrap and [c2]
    for b2: bootstrap returns normally whatever [c1] is, on either
    platform, and b2 is run after it; b2 raises [CalledProcessError] exactly
    on the non-Windows branch with [c2] nonzero, and then so does the
    pipeline; on Windows b2 and the pipeline return normally whatever [c2]
    is. *)
Theorem C4_exit_status_checks (w : World) (args : Namespace)
    (prefix_arg extract_directory : string) (c1 c2 : Z)
    (Hprep : outcome (prepare w args) = inr (prefix_arg, extract_directory))
    (Hboot : spawn w (bootstrap_cmd (os_name w) prefix_arg) true
               extract_directory = inr c1)
    (Hb2 : spawn w (b2_cmd (os_name w) prefix_arg) (b2_shell (os_name w))
             extract_directory = inr c2) :
  let b2_outcome :=
    match os_name w with
    | nt => inr tt
    | posix =>
        if Z.eqb c2 0 then inr tt
        else inl (CalledProcessError c2 (b2_cmd posix prefix_arg))
    end in
  outcome (bootstrap w prefix_arg extract_directory) = inr tt /\
  outcome (b2 w prefix_arg extract_directory) = b2_outcome /\
  In (Run (bootstrap_cmd (os_name w) prefix_arg) true extract_directory false)
     (trace (process w args)) /\
  In (Run (b2_cmd (os_name w) prefix_arg) (b2_shell (os_name w))
        extract_directory (b2_check (os_name w)))
     (trace (process w args)) /\
  outcome (process w args) = b2_outcome.
Proof.
  cbv zeta.
  assert (Hb : outcome (bootstrap w prefix_arg extract_directory) = inr tt).
  { rewrite bootstrap_eq. cbv zeta. now rewrite Hboot. }
  assert (Hc : outcome (b2 w prefix_arg extract_directory) =
               match os_name w with
               | nt => inr tt
               | posix =>
                   if Z.eqb c2 0 then inr tt
                   else inl (CalledProcessError c2 (b2_cmd posix prefix_arg))
               end).
  { rewrite b2_eq. cbv zeta. rewrite Hb2. cbn [outcome snd].
    destruct (os_name w); cbn; [reflexivity|].
    destruct (Z.eqb c2 0); reflexivity. }
  split; [exact Hb|]. split; [exact Hc|].
  rewrite process_prepare, trace_bind, outcome_bind, Hprep.
  rewrite trace_bind, outcome_bind, Hb.
  split; [|split; [|exact Hc]]; apply in_or_app; right.
  - apply in_or_app. left. rewrite bootstrap_eq. cbn. tauto.
  - apply in_or_app. right. rewrite b2_eq. cbn. tauto.
Qed.

Lemma C4_exit_status_checks_witness :
  (outcome (process (world_of posix "/tmp" (inr "tarball")
                       (fun c => if String.eqb c "sudo" then 2%Z else 1%Z))
              args_1_76) =
     inl (CalledProcessError 2
            ["sudo"; "./b2"; "install"; "--prefix=/usr/local/boost_1.76.0";
             "-j 8"])) /\
  (outcome (process (world_of nt "C:\Temp" (inr "tarball")
                       (fun c => if String.eqb c "b2.exe" then 2%Z else 1%Z))
              args_1_76) = inr tt).
Proof.
  split.
  - exact (proj2 (proj2 (proj2 (proj2
      (C4_exit_status_checks
         (world_of posix "/tmp" (inr "tarball")
            (fun c => if String.eqb c "sudo" then 2%Z else 1%Z))
         args_1_76 "--prefix=/usr/local/boost_1.76.0" "/tmp/boost_1_76_0"
         1%Z 2%Z eq_refl eq_refl eq_refl))))).
  - exact (proj2 (proj2 (proj2 (proj2
      (C4_exit_status_checks
         (world_of nt "C:\Temp" (inr "tarball")
            (fun c => if String.eqb c "b2.exe" then 2%Z else 1%Z))
         args_1_76 "--prefix=C:\boost\boost_1.76.0" "C:\Temp\boost_1_76_0"
         1%Z 2%Z eq_refl eq_refl eq_refl))))).
Defined.

(** ** The install prefix *)

Lemma posix_normpath_default (v : string) :
  Py.mem_char "/" v = false ->
  posixpath.normpath ("/usr/local/boost_" ++ v) = "/usr/local/boost_" ++ v.
Proof.
  intros H. unfold posixpath.normpath.
  assert (Hs : Py.split posixpath.sep ("/usr/local/boost_" ++ v)
               = [EmptyString; "usr"; "local"; "boost_" ++ v]).
  { change ("/usr/local/boost_" ++ v)
      with (EmptyString ++ String posixpath.sep
              ("usr" ++ String posixpath.sep
                 ("local" ++ String posixpath.sep ("boost_" ++ v)))).
    rewrite !split_app_sep by reflexivity.
    rewrite split_absent; [reflexivity | exact H]. }
  rewrite Hs. reflexivity.
Qed.

Lemma nt_splitdrive_default (v : string) :
  ntpath.splitdrive ("C:\boost\boost_" ++ v) = ("C:", "\boost\boost_" ++ v).
Proof. reflexivity. Qed.

Lemma nt_normpath_default (v : string) :
  Py.mem_char "\" v = false -> Py.mem_char "/" v = false ->
  ntpath.normpath ("C:\boost\boost_" ++ v) = "C:\boost\boost_" ++ v.
Proof.
  intros Hb Hs. unfold ntpath.normpath, ntpath.altsep, ntpath.sep.
  assert (Hr : Py.replace "/" "\" ("C:\boost\boost_" ++ v)
               = "C:\boost\boost_" ++ v).
  { apply replace_absent. rewrite mem_char_app, Hs. reflexivity. }
  rewrite Hr, nt_splitdrive_default.
  assert (Hsp : Py.split "\" ("boost\boost_" ++ v)
                = ["boost"; "boost_" ++ v]).
  { change ("boost\boost_" ++ v)
      with ("boost" ++ String "\" ("boost_" ++ v)).
    rewrite split_app_sep by reflexivity.
    rewrite split_absent; [reflexivity | exact Hb]. }
  change (Py.startswith ("\boost\boost_" ++ v) "\") with true.
  change (Py.lstrip "\" ("\boost\boost_" ++ v)) with ("boost\boost_" ++ v).
  cbv iota. rewrite Hsp. reflexivity.
Qed.

(** A version without separators leaves the default path as it is. *)
Lemma normpath_default (os : OsName) (version : string) :
  sep_free os version = true ->
  os_path.normpath os (default_path os version) = default_path os version.
Proof.
  destruct os; cbn [sep_free os_path.normpath default_path]; intros H.
  - apply andb_prop in H as [Hb Hs].
    apply negb_true_iff in Hb. apply negb_true_iff in Hs.
    now apply nt_normpath_default.
  - apply negb_true_iff in H. now apply posix_normpath_default.
Qed.


(** The normalized default path is rooted, whatever the version. *)
Lemma posix_normpath_rooted (s : string) :
  exists r, posixpath.normpath (String "/" s) = String "/" r.
Proof.
  unfold posixpath.normpath. cbn [Py.is_empty].
  assert (Hi : posixpath.initial_slashes (String "/" s) = 1 \/
               posixpath.initial_slashes (String "/" s) = 2).
  { unfold posixpath.initial_slashes. rewrite startswith_head.
    destruct (andb _ _); tauto. }
  destruct Hi as [Hi|Hi]; rewrite Hi; cbn; eexists; reflexivity.
Qed.

Lemma nt_normpath_rooted (v : string) :
  exists r, ntpath.normpath ("C:\boost\boost_" ++ v) = "C:\" ++ r.
Proof.
  unfold ntpath.normpath, ntpath.altsep, ntpath.sep.
  rewrite replace_app.
  change (Py.replace "/" "\" "C:\boost\boost_") with "C:\boost\boost_".
  rewrite nt_splitdrive_default.
  change (Py.startswith ("\boost\boost_" ++ Py.replace "/" "\" v) "\")
    with true.
  cbv iota. rewrite append_assoc. eexists. reflexivity.
Qed.

Lemma normpath_default_not_dot (os : OsName) (version : string) :
  os_path.normpath os (default_path os version) <> ".".
Proof.
  destruct os; cbn [os_path.normpath default_path].
  - destruct (nt_normpath_rooted version) as [r Hr]. rewrite Hr. discriminate.
  - destruct (posix_normpath_rooted ("usr/local/boost_" ++ version)) as [r Hr].
    change ("/usr/local/boost_" ++ version)
      with (String "/" ("usr/local/boost_" ++ version)).
    rewrite Hr. discriminate.
Qed.




(** C10. An empty install path is handled as an absent one: the whole
    computation of [get_prefix] is the same, its result is ['--prefix='] and
    the normalized platform default for the version, never ['--prefix=.'],
    and for a version without separators it is the default itself, such as
    ['--prefix=/usr/local/boost_' + version] off Windows. *)
Theorem C10_empty_path_is_absent (w : World) (version : string) :
  get_prefix w (Some EmptyString) version = get_prefix w None version /\
  outcome (get_prefix w (Some EmptyString) version) =
    inr ("--prefix=" ++
         os_path.normpath (os_name w)
           match os_name w with
           | nt => "C:\boost\boost_" ++ version
           | posix => "/usr/local/boost_" ++ version
           end) /\
  outcome (get_prefix w (Some EmptyString) version) <> inr "--prefix=." /\
  (sep_free (os_name w) version = true ->
   outcome (get_prefix w (Some EmptyString) version) =
     inr match os_name w with
         | nt => "--prefix=C:\boost\boost_" ++ version
         | posix => "--prefix=/usr/local/boost_" ++ version
         end).
Proof.
  split; [reflexivity|]. split; [reflexivity|].
  rewrite get_prefix_eq. cbv zeta. cbn [not_path Py.is_empty outcome snd].
  split.
  - intros H. injection H as H.
    exact (normpath_default_not_dot _ _ H).
  - intros Hsep. rewrite (normpath_default _ _ Hsep).
    now destruct (os_name w).
Qed.

Lemma C10_empty_path_is_absent_witness :
  outcome (get_prefix (calm posix "/tmp") (Some EmptyString) "1.76.0") =
    inr "--prefix=/usr/local/boost_1.76.0".
Proof.
  exact (proj2 (proj2 (proj2
    (C10_empty_path_is_absent (calm posix "/tmp") "1.76.0"))) eq_refl).
Defined.

(** ** Normalization collapses separators *)

Lemma contains_cons (x : ascii) (s sub : string) :
  Py.contains (String x s) sub =
  orb (String.prefix sub (String x s)) (Py.contains s sub).
Proof. reflexivity. Qed.

Lemma contains_doubled_other (c x : ascii) (s : string) :
  Ascii.eqb x c = false ->
  Py.contains (String x s) (doubled c) = Py.contains s (doubled c).
Proof.
  intros H. rewrite contains_cons. unfold doubled.
  now rewrite prefix_cons, Ascii.eqb_sym, H.
Qed.

Lemma contains_doubled_sep (c : ascii) (s : string) :
  Py.contains (String c s) (doubled c) =
  orb (Py.startswith s (String c EmptyString)) (Py.contains s (doubled c)).
Proof.
  rewrite contains_cons. unfold doubled, Py.startswith.
  now rewrite prefix_cons, Ascii.eqb_refl.
Qed.

Lemma contains_doubled_app (c : ascii) (a b : string) :
  Py.mem_char c a = false ->
  Py.contains b (doubled c) = false ->
  Py.contains (a ++ b) (doubled c) = false.
Proof.
  intros Ha Hb. induction a as [|x a IH]; [exact Hb|].
  cbn [Py.mem_char] in Ha. apply orb_false_elim in Ha as [Hx Ha].
  cbn [append]. rewrite contains_doubled_other by exact Hx. now apply IH.
Qed.

Lemma contains_doubled_absent (c : ascii) (s : string) :
  Py.mem_char c s = false -> Py.contains s (doubled c) = false.
Proof.
  intros H. rewrite <- (append_empty_r s).
  now apply contains_doubled_app.
Qed.

Lemma contains_drop (n : nat) (s sub : string) :
  Py.contains s sub = false -> Py.contains (Py.drop n s) sub = false.
Proof.
  revert s. induction n as [|n IH]; intros s H; [exact H|].
  destruct s as [|x s]; [exact H|].
  cbn [Py.drop]. apply IH.
  rewrite contains_cons in H. now apply orb_false_elim in H.
Qed.

Lemma Forall_removelast {A : Type} (P : A -> Prop) (l : list A) :
  Forall P l -> Forall P (removelast l).
Proof.
  induction 1 as [|x l Hx Hl IH]; [constructor|].
  cbn [removelast]. destruct l; [constructor|]. now constructor.
Qed.

Lemma Forall_snoc {A : Type} (P : A -> Prop) (l : list A) (x : A) :
  Forall P l -> P x -> Forall P (l ++ [x]).
Proof. intros Hl Hx. apply Forall_app. split; [exact Hl | now constructor]. Qed.

Lemma posix_step_kept (R : string -> Prop) (i : nat) (acc : list string)
    (comp : string) :
  Forall (kept R) acc -> R comp ->
  Forall (kept R) (posixpath.normpath_step i acc comp).
Proof.
  intros Hacc Hc. unfold posixpath.normpath_step.
  destruct (Py.is_empty comp) eqn:He; [exact Hacc|]. cbn [orb].
  destruct (String.eqb comp "."); [exact Hacc|].
  destruct (orb _ _).
  - apply Forall_snoc; [exact Hacc | now split].
  - now apply Forall_removelast.
Qed.

Lemma nt_step_kept (R : string -> Prop) (prefix : string) (acc : list string)
    (comp : string) :
  Forall (kept R) acc -> R comp ->
  Forall (kept R) (ntpath.normpath_step prefix acc comp).
Proof.
  intros Hacc Hc. unfold ntpath.normpath_step.
  destruct (Py.is_empty comp) eqn:He; [exact Hacc|]. cbn [orb].
  destruct (String.eqb comp "."); [exact Hacc|].
  assert (Hs : Forall (kept R) (acc ++ [comp])).
  { apply Forall_snoc; [exact Hacc | now split]. }
  destruct (String.eqb comp ".."); [|exact Hs].
  destruct (andb _ _); [now apply Forall_removelast|].
  destruct (andb _ _); assumption.
Qed.

Lemma fold_kept (R : string -> Prop)
    (step : list string -> string -> list string) :
  (forall acc comp, Forall (kept R) acc -> R comp ->
                    Forall (kept R) (step acc comp)) ->
  forall comps acc,
    Forall R comps -> Forall (kept R) acc ->
    Forall (kept R) (fold_left step comps acc).
Proof.
  intros Hstep comps. induction comps as [|c comps IH]; intros acc Hc Hacc.
  - exact Hacc.
  - inversion Hc; subst. cbn [fold_left]. apply IH; [assumption|].
    now apply Hstep.
Qed.

(** Joining kept components that hold no separator gives a string that
    neither starts with the separator nor doubles it. *)
Lemma join_kept (c : ascii) (l : list string) :
  Forall (kept (fun comp => Py.mem_char c comp = false)) l ->
  Py.contains (Py.join (String c EmptyString) l) (doubled c) = false /\
  Py.startswith (Py.join (String c EmptyString) l) (String c EmptyString)
    = false.
Proof.
  assert (Hhead : forall h rest,
            Py.is_empty h = false -> Py.mem_char c h = false ->
            Py.startswith (h ++ rest) (String c EmptyString) = false).
  { intros [|x h] rest He Hm; [discriminate|].
    cbn [Py.mem_char] in Hm. apply orb_false_elim in Hm as [Hx _].
    unfold Py.startswith. cbn [append].
    now rewrite prefix_cons, Ascii.eqb_sym, Hx. }
  unfold Py.join. induction 1 as [|h l [He Hm] Hl IH].
  - split; reflexivity.
  - destruct l as [|h' t].
    + cbn [String.concat]. split.
      * now apply contains_doubled_absent.
      * rewrite <- (append_empty_r h). now apply Hhead.
    + destruct IH as [IH1 IH2].
      change (String.concat (String c EmptyString) (h :: h' :: t))
        with (h ++ String c (String.concat (String c EmptyString) (h' :: t))).
      split.
      * apply contains_doubled_app; [exact Hm|].
        now rewrite contains_doubled_sep, IH1, IH2.
      * now apply Hhead.
Qed.

Lemma posix_normpath_collapsed (p : string) :
  Py.contains (Py.drop 1 (posixpath.normpath p)) "//" = false.
Proof.
  unfold posixpath.normpath.
  destruct (Py.is_empty p); [reflexivity|]. cbv zeta.
  assert (HJ : Forall (kept (fun comp => Py.mem_char "/" comp = false))
                 (fold_left
                    (posixpath.normpath_step (posixpath.initial_slashes p))
                    (Py.split posixpath.sep p) [])).
  { apply (fold_kept (fun comp => Py.mem_char "/" comp = false)).
    - intros acc comp.
      apply (posix_step_kept (fun comp => Py.mem_char "/" comp = false)).
    - apply split_pieces.
    - constructor. }
  apply join_kept in HJ. revert HJ.
  generalize (Py.join "/"
                (fold_left
                   (posixpath.normpath_step (posixpath.initial_slashes p))
                   (Py.split posixpath.sep p) [])).
  intros J [Hc Hs].
  assert (Hi : posixpath.initial_slashes p = 0 \/
               posixpath.initial_slashes p = 1 \/
               posixpath.initial_slashes p = 2).
  { unfold posixpath.initial_slashes.
    destruct (Py.startswith p "/"); [|tauto].
    destruct (andb _ _); tauto. }
  destruct Hi as [Hi|[Hi|Hi]]; rewrite Hi;
    cbn [Nat.eqb posixpath.repeat_sep append].
  - destruct (Py.is_empty J); [reflexivity|]. now apply contains_drop.
  - cbn [Py.is_empty Py.drop]. exact Hc.
  - cbn [Py.is_empty Py.drop].
    change "//" with (doubled "/").
    change (String posixpath.sep J) with (String "/" J).
    now rewrite contains_doubled_sep, Hs, Hc.
Qed.

Lemma mem_char_drop (c : ascii) (n : nat) (s : string) :
  Py.mem_char c s = false -> Py.mem_char c (Py.drop n s) = false.
Proof.
  revert s. induction n as [|n IH]; intros s H; [exact H|].
  destruct s as [|x s]; [exact H|].
  cbn [Py.drop]. apply IH. cbn [Py.mem_char] in H.
  now apply orb_false_elim in H.
Qed.

Lemma mem_char_lstrip (c d : ascii) (s : string) :
  Py.mem_char c s = false -> Py.mem_char c (Py.lstrip d s) = false.
Proof.
  induction s as [|x s IH]; intros H; [exact H|].
  cbn [Py.lstrip]. destruct (Ascii.eqb x d); [|exact H].
  apply IH. cbn [Py.mem_char] in H. now apply orb_false_elim in H.
Qed.

(** The pieces of a split hold no character that the string does not. *)
Lemma split_pieces_absent (x sep : ascii) (s : string) :
  Py.mem_char x s = false ->
  Forall (fun c => Py.mem_char x c = false) (Py.split sep s).
Proof.
  induction s as [|y s IH]; intros H.
  - repeat constructor.
  - cbn [Py.mem_char] in H. apply orb_false_elim in H as [Hy Hs].
    specialize (IH Hs). cbn [Py.split].
    destruct (Ascii.eqb y sep).
    + constructor; [reflexivity | exact IH].
    + destruct (Py.split sep s) as [|h t]; inversion IH; subst.
      * repeat constructor. cbn. now rewrite Hy.
      * constructor; [|assumption]. cbn [Py.mem_char]. now rewrite Hy.
Qed.

Lemma join_absent (x : ascii) (sep : string) (l : list string) :
  Py.mem_char x sep = false ->
  Forall (fun c => Py.mem_char x c = false) l ->
  Py.mem_char x (Py.join sep l) = false.
Proof.
  intros Hsep. unfold Py.join. induction 1 as [|h l Hh Hl IH]; [reflexivity|].
  destruct l as [|h' t]; [exact Hh|].
  change (String.concat sep (h :: h' :: t))
    with (h ++ sep ++ String.concat sep (h' :: t)).
  now rewrite !mem_char_app, Hh, Hsep, IH.
Qed.

Lemma splitdrive_rest_absent (c : ascii) (q : string) :
  Py.mem_char c q = false ->
  Py.mem_char c (snd (ntpath.splitdrive q)) = false.
Proof.
  intros H. unfold ntpath.splitdrive.
  destruct (Nat.leb 2 (String.length q)); [|exact H].
  cbv zeta. destruct (String.eqb _ "\\").
  - destruct (Py.find _ _ _) as [index|]; [|reflexivity].
    destruct (Py.find _ _ _) as [index2|]; [|reflexivity].
    now apply mem_char_drop.
  - destruct (String.eqb _ ":"); [|exact H].
    now apply mem_char_drop.
Qed.

Lemma is_empty_app_cons (a : string) (c : ascii) (b : string) :
  Py.is_empty (a ++ String c b) = false.
Proof. now destruct a. Qed.

(** Past the drive, [ntpath.normpath] leaves single backslashes only. *)
Lemma nt_normpath_collapsed (p : string) :
  exists tail,
    ntpath.normpath p =
      fst (ntpath.splitdrive (Py.replace "/" "\" p)) ++ tail /\
    Py.contains tail "\\" = false /\
    Py.mem_char "/" tail = false.
Proof.
  unfold ntpath.normpath, ntpath.altsep, ntpath.sep.
  assert (Hq : Py.mem_char "/" (Py.replace "/" "\" p) = false)
    by (apply replace_removes; discriminate).
  apply (splitdrive_rest_absent "/") in Hq.
  destruct (ntpath.splitdrive (Py.replace "/" "\" p)) as [drive rest].
  cbn [fst snd] in *.
  set (R := fun comp => Py.mem_char "\" comp = false /\
                        Py.mem_char "/" comp = false).
  assert (Hfold : forall prefix path,
            Py.mem_char "/" path = false ->
            Forall (kept R)
              (fold_left (ntpath.normpath_step prefix) (Py.split "\" path) [])).
  { intros prefix path Hp. apply (fold_kept R).
    - intros acc comp. apply (nt_step_kept R).
    - pose proof (split_pieces "\" path) as H1.
      pose proof (split_pieces_absent "/" "\" path Hp) as H2.
      rewrite Forall_forall in *. intros c Hc. split; auto.
    - constructor. }
  assert (Hjoin : forall l, Forall (kept R) l ->
            Py.contains (Py.join "\" l) "\\" = false /\
            Py.startswith (Py.join "\" l) "\" = false /\
            Py.mem_char "/" (Py.join "\" l) = false).
  { intros l Hl.
    destruct (join_kept "\" l) as [H1 H2].
    { eapply Forall_impl; [|exact Hl]. intros c [He [Hb _]]. now split. }
    repeat split; [exact H1 | exact H2 |].
    apply join_absent; [reflexivity|].
    eapply Forall_impl; [|exact Hl]. now intros c [_ [_ Hs]]. }
  destruct (Py.startswith rest "\").
  - specialize (Hfold (drive ++ "\") (Py.lstrip "\" rest)
                  (mem_char_lstrip _ _ _ Hq)).
    apply Hjoin in Hfold. revert Hfold.
    generalize (fold_left (ntpath.normpath_step (drive ++ "\"))
                  (Py.split "\" (Py.lstrip "\" rest)) []).
    intros comps [Hc [Hs Hm]].
    rewrite is_empty_app_cons. cbn [andb].
    exists (String "\" (Py.join "\" comps)). split; [|split].
    + now rewrite append_assoc.
    + change "\\" with (doubled "\").
      rewrite contains_doubled_sep. change (doubled "\") with "\\".
      now rewrite Hs, Hc.
    + cbn [Py.mem_char]. exact Hm.
  - specialize (Hfold drive rest Hq).
    pose proof (Hjoin _ Hfold) as Hj. revert Hj. clear Hfold.
    generalize (fold_left (ntpath.normpath_step drive) (Py.split "\" rest) []).
    intros comps [Hc [Hs Hm]].
    destruct (andb (Py.is_empty drive) (Nat.eqb (List.length comps) 0)) eqn:E.
    + apply andb_prop in E as [_ E]. destruct comps; [|discriminate].
      exists ".". repeat split.
    + exists (Py.join "\" comps). repeat split; assumption.
Qed.

(** ** What the bootstrap child process is given *)

(** On POSIX the shell of the bootstrap stage is told to run
    [./bootstrap.sh] and nothing else: the prefix argument becomes the
    shell's own [$0] whatever it is. *)
Lemma bootstrap_command_string (prefix_arg : string) :
  sh_c (posix_exec_args true (bootstrap_cmd posix prefix_arg)) =
    Some {| command_string := "./bootstrap.sh";
            command_name := Some prefix_arg;
            positional := [] |}.
Proof. reflexivity. Qed.

(** The b2 stage runs without a shell there, so its argument vector is
    the list itself, prefix argument included. *)
Lemma b2_exec_args (prefix_arg : string) :
  posix_exec_args (b2_shell posix) (b2_cmd posix prefix_arg) =
    ["sudo"; "./b2"; "install"; prefix_arg; "-j 8"].
Proof. reflexivity. Qed.

(** C6 (the code at version 1.76, no path, POSIX, temp directory /tmp).
    The run prints the bootstrap command as
    [./bootstrap.sh --prefix=/usr/local/boost_1.76.0] and starts the child
    in [/tmp/boost_1_76_0] with [shell=True] and the two-item list; what is
    executed is [/bin/sh -c ./bootstrap.sh --prefix=...], whose command
    string is [./bootstrap.sh] alone, the prefix argument being the shell's
    [$0]: the bootstrap executable is not given the prefix argument. *)
Theorem C6_bootstrap_prefix_not_delivered :
  In (Print ("./bootstrap.sh --prefix=/usr/local/boost_1.76.0" ++ nl))
     (trace (script (calm posix "/tmp") args_1_76)) /\
  In (Run ["./bootstrap.sh"; "--prefix=/usr/local/boost_1.76.0"] true
        "/tmp/boost_1_76_0" false)
     (trace (script (calm posix "/tmp") args_1_76)) /\
  posix_exec_args true ["./bootstrap.sh"; "--prefix=/usr/local/boost_1.76.0"] =
    ["/bin/sh"; "-c"; "./bootstrap.sh"; "--prefix=/usr/local/boost_1.76.0"] /\
  sh_c (posix_exec_args true
          ["./bootstrap.sh"; "--prefix=/usr/local/boost_1.76.0"]) =
    Some {| command_string := "./bootstrap.sh";
            command_name := Some "--prefix=/usr/local/boost_1.76.0";
            positional := [] |} /\
  "./bootstrap.sh" <> "./bootstrap.sh --prefix=/usr/local/boost_1.76.0".
Proof.
  repeat split; try reflexivity; try discriminate; vm_compute; tauto.
Qed.

(** ** The extraction directory *)

Lemma startswith_slash_absent (base rest : string) :
  Py.mem_char "/" base = false ->
  Py.startswith (base ++ String "." rest) "/" = false /\
  Py.startswith base "/" = false.
Proof.
  destruct base as [|c base]; [intros _; split; reflexivity|].
  cbn [Py.mem_char]. intros H. apply orb_false_elim in H as [Hc _].
  unfold Py.startswith. cbn [append].
  rewrite !prefix_cons, Ascii.eqb_sym, Hc. split; reflexivity.
Qed.

Lemma startswith_app (a b : string) (c : ascii) :
  Py.startswith a (String c EmptyString) = true ->
  Py.startswith (a ++ b) (String c EmptyString) = true.
Proof.
  destruct a as [|x a]; [discriminate|].
  unfold Py.startswith. cbn [append]. rewrite !prefix_cons.
  destruct (Ascii.eqb c x); [|discriminate].
  intros _. apply prefix_empty.
Qed.

(** Where the temp directory is absolute and holds no dot, the directory
    returned by [extract] is the temp directory joined with the archive
    base name. *)
Lemma extract_directory_dotfree (w : World) (T base : string) :
  os_name w = posix ->
  Py.startswith T "/" = true ->
  Py.mem_char "." T = false ->
  Py.mem_char "." base = false ->
  Py.mem_char "/" base = false ->
  extractall w (posixpath.join T (base ++ ".tar.gz")) T = None ->
  outcome (extract w T (os_path.join (os_name w) T (base ++ ".tar.gz"))) =
    inr (os_path.join (os_name w) T base).
Proof.
  intros Hos Habs HT Hbase Hslash Hext.
  rewrite extract_eq, Hos. cbn [os_path.join outcome snd]. rewrite Hext.
  destruct (startswith_slash_absent base "tar.gz" Hslash) as [Hs1 Hs2].
  f_equal. unfold posixpath.join at 2 3. rewrite Hs1, Hs2.
  assert (Hd : forall X, Py.mem_char "." X = false ->
               Py.startswith X "/" = true ->
               posixpath.join T (dir_name_of (X ++ base ++ ".tar.gz"))
               = X ++ base).
  { intros X HX HXs. unfold dir_name_of.
    change (X ++ base ++ ".tar.gz") with (X ++ base ++ String "." "tar.gz").
    rewrite <- append_assoc, split_app_sep.
    - cbn [hd]. unfold posixpath.join.
      now rewrite (startswith_app X base "/" HXs).
    - now rewrite mem_char_app, HX, Hbase. }
  destruct (orb (Py.is_empty T) (Py.endswith T posixpath.sep)).
  - apply Hd; assumption.
  - rewrite <- (append_assoc T "/" base).
    rewrite <- (append_assoc T "/" (base ++ ".tar.gz")).
    apply Hd.
    + now rewrite mem_char_app, HT.
    + now apply startswith_app.
Qed.

(** C2 (the code where the temp directory holds a dot).  With the temp
    directory [/tmp/my.dir] the archive is saved as
    [/tmp/my.dir/boost_1_76_0.tar.gz] and [extract] returns [/tmp/my], not
    the temp directory joined with the archive base name
    [/tmp/my.dir/boost_1_76_0]; likewise on Windows under a user profile
    with a dotted name. *)
Theorem C2_extract_directory_dotted_tempdir :
  os_path.join posix "/tmp/my.dir" "boost_1_76_0.tar.gz" =
    "/tmp/my.dir/boost_1_76_0.tar.gz" /\
  outcome (extract (calm posix "/tmp/my.dir") "/tmp/my.dir"
             (os_path.join posix "/tmp/my.dir" "boost_1_76_0.tar.gz")) =
    inr "/tmp/my" /\
  os_path.join posix "/tmp/my.dir" "boost_1_76_0" =
    "/tmp/my.dir/boost_1_76_0" /\
  outcome (extract (calm nt "C:\Users\john.doe\AppData\Local\Temp")
             "C:\Users\john.doe\AppData\Local\Temp"
             (os_path.join nt "C:\Users\john.doe\AppData\Local\Temp"
                "boost_1_76_0.tar.gz")) =
    inr "C:\Users\john" /\
  os_path.join nt "C:\Users\john.doe\AppData\Local\Temp" "boost_1_76_0" =
    "C:\Users\john.doe\AppData\Local\Temp\boost_1_76_0".
Proof. repeat split. Qed.

(** ** What the derived values depend on *)

(** C8 (as the code has it).  For two runs on the same OS with the same
    arguments, the resolved version, the archive name, the URL and the
    prefix argument are the same; the destination path and the extraction
    directory are the same once [tempfile.gettempdir()] also answers the
    same in both runs. *)
Theorem C8_derived_values_determined (w1 w2 : World) (args : Namespace)
    (Hos : os_name w1 = os_name w2) :
  (forall v1 t1 u1 f1 v2 t2 u2 f2,
     outcome (metainfo w1 args) = inr (v1, t1, u1, f1) ->
     outcome (metainfo w2 args) = inr (v2, t2, u2, f2) ->
     v1 = v2 /\ u1 = u2 /\
     f1 = os_path.join (os_name w1) t1 (archive_name (args_version args)) /\
     f2 = os_path.join (os_name w1) t2 (archive_name (args_version args))) /\
  (forall version,
     outcome (get_prefix w1 (args_path args) version) =
     outcome (get_prefix w2 (args_path args) version)) /\
  (gettempdir w1 = gettempdir w2 ->
   outcome (metainfo w1 args) = outcome (metainfo w2 args) /\
   forall r1 r2,
     outcome (prepare w1 args) = inr r1 ->
     outcome (prepare w2 args) = inr r2 -> r1 = r2).
Proof.
  split; [|split].
  - intros v1 t1 u1 f1 v2 t2 u2 f2. rewrite !metainfo_eq.
    cbn [outcome snd]. unfold file_name_of. rewrite <- Hos.
    intros H1 H2. injection H1 as <- <- <- <-. injection H2 as <- <- <- <-.
    repeat split.
  - intros version. rewrite !get_prefix_eq. cbv zeta. now rewrite Hos.
  - intros Ht. split.
    + rewrite !metainfo_eq. unfold file_name_of. now rewrite Hos, Ht.
    + intros r1 r2. rewrite !prepare_outcome. cbv zeta.
      rewrite !get_prefix_eq. cbv zeta. cbn [outcome snd].
      unfold file_name_of. rewrite <- Hos, <- Ht.
      destruct (urlopen w1 _); [discriminate|].
      destruct (write_file w1 _ _); [discriminate|].
      destruct (extractall w1 _ _); [discriminate|].
      destruct (urlopen w2 _); [discriminate|].
      destruct (write_file w2 _ _); [discriminate|].
      destruct (extractall w2 _ _); [discriminate|].
      congruence.
Qed.

Lemma C8_derived_values_determined_witness :
  outcome (prepare (calm posix "/tmp") args_1_76) =
    inr ("--prefix=/usr/local/boost_1.76.0", "/tmp/boost_1_76_0") /\
  (forall r2,
     outcome (prepare (world_of posix "/tmp" (inr "other bytes")
                         (fun _ => 3%Z)) args_1_76) = inr r2 ->
     ("--prefix=/usr/local/boost_1.76.0", "/tmp/boost_1_76_0") = r2).
Proof.
  split; [reflexivity|].
  intros r2 H2.
  exact (proj2 (proj2 (proj2
    (C8_derived_values_determined (calm posix "/tmp")
       (world_of posix "/tmp" (inr "other bytes") (fun _ => 3%Z))
       args_1_76 eq_refl)) eq_refl)
    ("--prefix=/usr/local/boost_1.76.0", "/tmp/boost_1_76_0") r2 eq_refl H2).
Defined.

(** C8 as stated fails: two runs with the same version, path and OS whose
    temp directories differ resolve different destination paths and
    extraction directories. *)
Lemma C8_counterexample :
  os_name (calm posix "/tmp") = os_name (calm posix "/var/tmp") /\
  outcome (metainfo (calm posix "/tmp") args_1_76) =
    inr ("1.76.0", "/tmp", url_of "1.76", "/tmp/boost_1_76_0.tar.gz") /\
  outcome (metainfo (calm posix "/var/tmp") args_1_76) =
    inr ("1.76.0", "/var/tmp", url_of "1.76", "/var/tmp/boost_1_76_0.tar.gz") /\
  outcome (prepare (calm posix "/tmp") args_1_76) =
    inr ("--prefix=/usr/local/boost_1.76.0", "/tmp/boost_1_76_0") /\
  outcome (prepare (calm posix "/var/tmp") args_1_76) =
    inr ("--prefix=/usr/local/boost_1.76.0", "/var/tmp/boost_1_76_0") /\
  outcome (metainfo (calm posix "/tmp") args_1_76) <>
    outcome (metainfo (calm posix "/var/tmp") args_1_76).
Proof. repeat split. discriminate. Qed.

(** ** An explicit install path *)

Lemma normpath_collapsed (os : OsName) (p : string) :
  separators_collapsed os p (os_path.normpath os p).
Proof.
  destruct os; cbn [separators_collapsed os_path.normpath].
  - apply nt_normpath_collapsed.
  - apply posix_normpath_collapsed.
Qed.

(** C7. For a non-empty install path [p], [get_prefix] returns the one
    string ['--prefix=' + os.path.normpath(p)], in which separator runs are
    collapsed; when the stages before the build succeed, that string is
    what [process] hands to both build stages: it is an item of the command
    list of the bootstrap run and of the b2 run. *)
Theorem C7_explicit_path_normalized (w : World) (args : Namespace)
    (p prefix_arg extract_directory : string) (c1 : Z)
    (Hpath : args_path args = Some p)
    (Hne : Py.is_empty p = false)
    (Hprep : outcome (prepare w args) = inr (prefix_arg, extract_directory))
    (Hboot : spawn w (bootstrap_cmd (os_name w) prefix_arg) true
               extract_directory = inr c1) :
  (forall version,
     outcome (get_prefix w (Some p) version) =
       inr ("--prefix=" ++ os_path.normpath (os_name w) p)) /\
  prefix_arg = "--prefix=" ++ os_path.normpath (os_name w) p /\
  separators_collapsed (os_name w) p (os_path.normpath (os_name w) p) /\
  In (Run (bootstrap_cmd (os_name w) prefix_arg) true extract_directory false)
     (trace (process w args)) /\
  In prefix_arg (bootstrap_cmd (os_name w) prefix_arg) /\
  In (Run (b2_cmd (os_name w) prefix_arg) (b2_shell (os_name w))
        extract_directory (b2_check (os_name w)))
     (trace (process w args)) /\
  In prefix_arg (b2_cmd (os_name w) prefix_arg).
Proof.
  assert (Hg : forall version,
             outcome (get_prefix w (Some p) version) =
               inr ("--prefix=" ++ os_path.normpath (os_name w) p)).
  { intros version. rewrite get_prefix_eq. cbv zeta. cbn [not_path].
    now rewrite Hne. }
  split; [exact Hg|]. split.
  - rewrite prepare_outcome in Hprep. cbv zeta in Hprep.
    rewrite Hpath, Hg in Hprep.
    destruct (urlopen w _); [discriminate|].
    destruct (write_file w _ _); [discriminate|].
    destruct (extractall w _ _); [discriminate|].
    now injection Hprep as <- _.
  - split; [apply normpath_collapsed|].
    rewrite process_prepare, trace_bind, Hprep.
    rewrite trace_bind, bootstrap_eq, b2_eq. cbv zeta.
    cbn [outcome trace fst snd]. rewrite Hboot.
    repeat split.
    + apply in_or_app. right. apply in_or_app. left. cbn. tauto.
    + destruct (os_name w); cbn; tauto.
    + apply in_or_app. right. apply in_or_app. right. cbn. tauto.
    + destruct (os_name w); cbn; tauto.
Qed.

Lemma C7_explicit_path_normalized_witness :
  (outcome (get_prefix (calm posix "/tmp") (Some "/opt//boost///1.76/")
              "1.76.0") = inr "--prefix=/opt/boost/1.76") /\
  (In (Run ["sudo"; "./b2"; "install"; "--prefix=/opt/boost/1.76"; "-j 8"]
         false "/tmp/boost_1_76_0" true)
      (trace (process (calm posix "/tmp")
                {| args_version := "1.76";
                   args_path := Some "/opt//boost///1.76/" |}))) /\
  (outcome (get_prefix (calm nt "C:\Temp") (Some "C:\Boost\\x") "1.76.0")
     = inr "--prefix=C:\Boost\x").
Proof.
  split; [|split].
  - exact (proj1 (C7_explicit_path_normalized (calm posix "/tmp")
             {| args_version := "1.76";
                args_path := Some "/opt//boost///1.76/" |}
             "/opt//boost///1.76/" "--prefix=/opt/boost/1.76"
             "/tmp/boost_1_76_0" 0%Z eq_refl eq_refl eq_refl eq_refl)
           "1.76.0").
  - exact (proj1 (proj2 (proj2 (proj2 (proj2 (proj2
             (C7_explicit_path_normalized (calm posix "/tmp")
                {| args_version := "1.76";
                   args_path := Some "/opt//boost///1.76/" |}
                "/opt//boost///1.76/" "--prefix=/opt/boost/1.76"
                "/tmp/boost_1_76_0" 0%Z eq_refl eq_refl eq_refl eq_refl))))))).
  - exact (proj1 (C7_explicit_path_normalized (calm nt "C:\Temp")
             {| args_version := "1.76"; args_path := Some "C:\Boost\\x" |}
             "C:\Boost\\x" "--prefix=C:\Boost\x"
             "C:\Temp\boost_1_76_0" 0%Z eq_refl eq_refl eq_refl eq_refl)
           "1.76.0").
Defined.

(** * Further properties of the pipeline *)

(** ** Order and extent of the external calls *)

Lemma process_externals (w : World) (args : Namespace) :
  externals (trace (process w args)) = firstn (reached w args) (plan w args) /\
  (outcome (process w args) = inr tt -> reached w args = 5).
Proof.
  unfold process, reached, plan. rewrite metainfo_eq. cbn [bind].
  rewrite download_eq. cbv zeta.
  destruct (urlopen w _) as [e|data]; [split; [reflexivity | discriminate]|].
  destruct (write_file w _ data); [split; [reflexivity | discriminate]|].
  cbn [bind]. rewrite extract_eq.
  destruct (extractall w _ _); [split; [reflexivity | discriminate]|].
  cbn [bind]. rewrite get_prefix_eq. cbv zeta. cbn [bind].
  rewrite bootstrap_eq, b2_eq. cbv zeta.
  fold (prefix_arg_of (os_name w) (args_path args)
          (version_with_dots (args_version args))).
  destruct (spawn w _ true _) as [e|c1]; [split; [reflexivity | discriminate]|].
  cbn [bind]. 
  destruct (spawn w _ _ _) as [e|c2]; split; reflexivity.
Qed.

Lemma process_outcome (w : World) (args : Namespace) :
  outcome (process w args) =
  let version := args_version args in
  let file_name := file_name_of w version in
  let extract_directory :=
    os_path.join (os_name w) (gettempdir w) (dir_name_of file_name) in
  let prefix_arg :=
    prefix_arg_of (os_name w) (args_path args) (version_with_dots version) in
  match urlopen w (url_of version) with
  | inl e => inl e
  | inr data =>
      match write_file w file_name data with
      | Some e => inl e
      | None =>
          match extractall w file_name (gettempdir w) with
          | Some e => inl e
          | None =>
              match spawn w (bootstrap_cmd (os_name w) prefix_arg) true
                      extract_directory with
              | inl e => inl e
              | inr _ =>
                  outcome (b2 w prefix_arg extract_directory)
              end
          end
      end
  end.
Proof.
  rewrite process_prepare, outcome_bind, prepare_outcome. cbv zeta.
  destruct (urlopen w _) as [e|data]; [reflexivity|].
  destruct (write_file w _ data); [reflexivity|].
  destruct (extractall w _ _); [reflexivity|].
  rewrite get_prefix_eq. cbv zeta. cbn [outcome snd].
  fold (prefix_arg_of (os_name w) (args_path args)
          (version_with_dots (args_version args))).
  rewrite outcome_bind, bootstrap_eq. cbv zeta. cbn [outcome snd].
  destruct (spawn w _ true _); reflexivity.
Qed.

Lemma In_firstn {A : Type} (x : A) (n : nat) (l : list A) :
  In x (firstn n l) -> In x l.
Proof.
  revert l. induction n as [|n IH]; intros [|y l]; cbn; try tauto.
  intros [H|H]; [now left | right; now apply IH].
Qed.

(** Every call a run makes is one of the planned calls. *)
Lemma external_in_plan (w : World) (args : Namespace) (ev : event) :
  In ev (trace (process w args)) -> is_print ev = false ->
  In ev (plan w args).
Proof.
  intros Hin Hp.
  apply (In_firstn ev (reached w args)).
  rewrite <- (proj1 (process_externals w args)).
  apply filter_In. now rewrite Hp.
Qed.



(** X2. A call that raises is the last call of the run, and its exception
    is what [process] raises: when the write of the fetched data fails
    nothing is extracted, when the extraction fails no child process is
    started, and when the bootstrap child cannot be launched b2 is not
    run. *)
Theorem X2_failing_call_is_last (w : World) (args : Namespace)
    (data : string) (e : exn)
    (Hfetch : urlopen w (url_of (args_version args)) = inr data) :
  let file_name := file_name_of w (args_version args) in
  let extract_directory :=
    os_path.join (os_name w) (gettempdir w) (dir_name_of file_name) in
  let prefix_arg :=
    prefix_arg_of (os_name w) (args_path args)
      (version_with_dots (args_version args)) in
  (write_file w file_name data = Some e ->
   outcome (process w args) = inl e /\
   externals (trace (process w args)) = firstn 2 (plan w args)) /\
  (write_file w file_name data = None ->
   extractall w file_name (gettempdir w) = Some e ->
   outcome (process w args) = inl e /\
   externals (trace (process w args)) = firstn 3 (plan w args)) /\
  (write_file w file_name data = None ->
   extractall w file_name (gettempdir w) = None ->
   spawn w (bootstrap_cmd (os_name w) prefix_arg) true extract_directory
     = inl e ->
   outcome (process w args) = inl e /\
   externals (trace (process w args)) = firstn 4 (plan w args)).
Proof.
  cbv zeta. rewrite process_outcome, (proj1 (process_externals w args)).
  unfold reached. cbv zeta. rewrite Hfetch.
  split; [|split].
  - intros Hw. now rewrite Hw.
  - intros Hw Hx. now rewrite Hw, Hx.
  - intros Hw Hx Hb. now rewrite Hw, Hx, Hb.
Qed.

Lemma X2_failing_call_is_last_witness :
  (externals (trace (process
     (world_with posix "/tmp" (inr "tarball") (Some (OSError "disk full"))
        None (inr 0%Z) (inr 0%Z)) args_1_76)) =
   [Urlopen (url_of "1.76"); WriteFile "/tmp/boost_1_76_0.tar.gz" "tarball"]) /\
  (externals (trace (process
     (world_with posix "/tmp" (inr "tarball") None
        (Some (ReadError "not a gzip file")) (inr 0%Z) (inr 0%Z)) args_1_76)) =
   [Urlopen (url_of "1.76"); WriteFile "/tmp/boost_1_76_0.tar.gz" "tarball";
    Extractall "/tmp/boost_1_76_0.tar.gz" "/tmp"]) /\
  (outcome (process
     (world_with posix "/tmp" (inr "tarball") None None
        (inl (OSError "No such file or directory")) (inr 0%Z)) args_1_76) =
   inl (OSError "No such file or directory")).
Proof.
  split; [|split].
  - exact (proj2 (proj1
      (X2_failing_call_is_last
         (world_with posix "/tmp" (inr "tarball") (Some (OSError "disk full"))
            None (inr 0%Z) (inr 0%Z))
         args_1_76 "tarball" (OSError "disk full") eq_refl) eq_refl)).
  - exact (proj2 (proj1 (proj2
      (X2_failing_call_is_last
         (world_with posix "/tmp" (inr "tarball") None
            (Some (ReadError "not a gzip file")) (inr 0%Z) (inr 0%Z))
         args_1_76 "tarball" (ReadError "not a gzip file") eq_refl))
      eq_refl eq_refl)).
  - exact (proj1 (proj2 (proj2
      (X2_failing_call_is_last
         (world_with posix "/tmp" (inr "tarball") None None
            (inl (OSError "No such file or directory")) (inr 0%Z))
         args_1_76 "tarball" (OSError "No such file or directory") eq_refl))
      eq_refl eq_refl eq_refl)).
Defined.

(** ** What the script reports *)

(** [process] itself never prints an exception. *)
Lemma process_prints_no_exception (w : World) (args : Namespace)
    (color : string) (e : exn) :
  ~ In (PrintExc color e) (trace (process w args)).
Proof.
  unfold process. rewrite metainfo_eq. cbn [bind].
  rewrite download_eq. cbv zeta.
  destruct (urlopen w _) as [e1|data];
    [cbn; intuition discriminate|].
  destruct (write_file w _ data); [cbn; intuition discriminate|].
  cbn [bind]. rewrite extract_eq.
  destruct (extractall w _ _); [cbn; intuition discriminate|].
  cbn [bind]. rewrite get_prefix_eq. cbv zeta. cbn [bind].
  rewrite bootstrap_eq, b2_eq. cbv zeta.
  destruct (spawn w _ true _) as [e1|c1]; [cbn; intuition discriminate|].
  cbn [bind].
  destruct (spawn w _ _ _) as [e2|c2]; cbn; intuition discriminate.
Qed.

(** X3. The script never ends with an exception, whatever fails: the
    catch-all of the main block swallows it.  It prints an exception in red
    exactly when [process] raised it, after everything [process] did, and
    the handler makes no external call of its own. *)
Theorem X3_script_swallows_exceptions (w : World) (args : Namespace) :
  outcome (script w args) = inr tt /\
  (forall e,
     In (PrintExc Fore_RED e) (trace (script w args)) <->
     outcome (process w args) = inl e) /\
  (forall e,
     outcome (process w args) = inl e ->
     trace (script w args) =
       (trace (process w args) ++ [Print "Error: "; PrintExc Fore_RED e])%list) /\
  (outcome (process w args) = inr tt ->
   trace (script w args) = trace (process w args)) /\
  externals (trace (script w args)) = externals (trace (process w args)).
Proof.
  pose proof (process_prints_no_exception w args Fore_RED) as Hno.
  rewrite script_eq.
  destruct (outcome (process w args)) as [e0|[]] eqn:Ho;
    cbn [outcome trace fst snd].
  - split; [reflexivity|]. split; [|split; [|split]].
    + intros e. rewrite in_app_iff. cbn [In]. split.
      * intros [H|[H|[H|[]]]]; [now apply Hno in H | discriminate | congruence].
      * intros H. injection H as ->. tauto.
    + intros e H. now injection H as ->.
    + discriminate.
    + unfold externals. rewrite filter_app. cbn. now rewrite app_nil_r.
  - split; [reflexivity|]. split; [|split; [|split]].
    + intros e. split; [intros H; now apply Hno in H | discriminate].
    + discriminate.
    + reflexivity.
    + reflexivity.
Qed.

Lemma X3_script_swallows_exceptions_witness :
  outcome (process (world_of posix "/tmp" (inr "tarball")
                      (fun c => if String.eqb c "sudo" then 2%Z else 0%Z))
             args_1_76) =
    inl (CalledProcessError 2
           ["sudo"; "./b2"; "install"; "--prefix=/usr/local/boost_1.76.0";
            "-j 8"]) /\
  outcome (script (world_of posix "/tmp" (inr "tarball")
                     (fun c => if String.eqb c "sudo" then 2%Z else 0%Z))
             args_1_76) = inr tt.
Proof.
  split; [reflexivity|].
  exact (proj1 (X3_script_swallows_exceptions
    (world_of posix "/tmp" (inr "tarball")
       (fun c => if String.eqb c "sudo" then 2%Z else 0%Z)) args_1_76)).
Defined.

(** ** Child processes *)

(** X4. On POSIX no text that comes from the command line is ever read by
    a shell: the only child started with [shell=True] is the bootstrap one,
    and the string its shell runs is the constant [./bootstrap.sh], the
    prefix argument being the shell's [$0]; the b2 child is started
    without a shell. *)
Theorem X4_posix_shell_runs_constant (w : World) (args : Namespace)
    (cmd : list string) (cwd : string) (check : bool)
    (Hos : os_name w = posix)
    (Hrun : In (Run cmd true cwd check) (trace (process w args))) :
  sh_c (posix_exec_args true cmd) =
    Some {| command_string := "./bootstrap.sh";
            command_name :=
              Some (prefix_arg_of posix (args_path args)
                      (version_with_dots (args_version args)));
            positional := [] |}.
Proof.
  apply external_in_plan in Hrun; [|reflexivity].
  unfold plan in Hrun. cbv zeta in Hrun. rewrite Hos in Hrun.
  cbn [In b2_shell] in Hrun.
  destruct Hrun as [H|[H|[H|[H|[H|[]]]]]]; try discriminate.
  injection H as <- _ _. reflexivity.
Qed.

Lemma X4_posix_shell_runs_constant_witness :
  sh_c (posix_exec_args true
          ["./bootstrap.sh"; "--prefix=/opt/$(reboot)"]) =
    Some {| command_string := "./bootstrap.sh";
            command_name := Some "--prefix=/opt/$(reboot)";
            positional := [] |}.
Proof.
  refine (X4_posix_shell_runs_constant (calm posix "/tmp")
            {| args_version := "1.76"; args_path := Some "/opt/$(reboot)" |}
            ["./bootstrap.sh"; "--prefix=/opt/$(reboot)"]
            "/tmp/boost_1_76_0" false eq_refl _).
  vm_compute. do 13 right. left. reflexivity.
Defined.

(** ** The directory the build runs in *)

Lemma length_append (a b : string) :
  String.length (a ++ b) = String.length a + String.length b.
Proof. induction a as [|x a IH]; cbn; [reflexivity | now rewrite IH]. Qed.

(** A string that holds [c] splits at its first [c]. *)
Lemma mem_char_first (c : ascii) (s : string) :
  Py.mem_char c s = true ->
  exists a b, s = a ++ String c b /\ Py.mem_char c a = false.
Proof.
  induction s as [|x s IH]; [discriminate|].
  cbn [Py.mem_char]. destruct (Ascii.eqb x c) eqn:E.
  - intros _. apply Ascii.eqb_eq in E. subst x.
    exists EmptyString, s. split; reflexivity.
  - cbn [orb]. intros H. destruct (IH H) as [a [b [-> Ha]]].
    exists (String x a), b. split; [reflexivity|].
    cbn [Py.mem_char]. now rewrite E, Ha.
Qed.

(** [posixpath.join] with a relative second part appends it after a
    separator that depends on the first part only. *)
Lemma posix_join_relative (a b : string) :
  Py.startswith b "/" = false ->
  posixpath.join a b =
    a ++ (if orb (Py.is_empty a) (Py.endswith a posixpath.sep)
          then EmptyString else "/") ++ b.
Proof.
  intros H. unfold posixpath.join. rewrite H.
  destruct (orb _ _); reflexivity.
Qed.

(** Where the temp directory holds a dot, [extract] returns the part of
    the temp directory before its first dot. *)
Lemma extract_directory_dotted (T base a b : string) :
  Py.startswith T "/" = true ->
  T = a ++ String "." b -> Py.mem_char "." a = false ->
  Py.mem_char "/" base = false ->
  posixpath.join T (dir_name_of (posixpath.join T (base ++ ".tar.gz"))) = a.
Proof.
  intros Habs HT Ha Hslash.
  destruct (startswith_slash_absent base "tar.gz" Hslash) as [Hs1 _].
  rewrite (posix_join_relative T _ Hs1).
  set (s := if orb _ _ then _ else _).
  unfold dir_name_of.
  replace (T ++ s ++ base ++ ".tar.gz")
    with (a ++ String "." (b ++ s ++ base ++ ".tar.gz"))
    by (rewrite HT, append_assoc; reflexivity).
  rewrite (split_app_sep "." a _ Ha). cbn [hd].
  unfold posixpath.join.
  destruct a as [|x a'].
  - rewrite HT in Habs. discriminate.
  - rewrite HT in Habs. unfold Py.startswith in *. cbn [append] in Habs.
    rewrite prefix_cons in *. destruct (Ascii.eqb "/" x); [|discriminate].
    now rewrite prefix_empty.
Qed.

(** X5. On POSIX, for an absolute temp directory and an archive named
    [base + '.tar.gz'] with no dot and no slash in [base], the directory
    [extract] returns is the temp directory joined with [base] if and only
    if the temp directory path holds no dot. *)
Theorem X5_extract_directory_iff (w : World) (T base : string)
    (Hos : os_name w = posix)
    (Habs : Py.startswith T "/" = true)
    (Hbase : Py.mem_char "." base = false)
    (Hslash : Py.mem_char "/" base = false)
    (Hext : extractall w (posixpath.join T (base ++ ".tar.gz")) T = None) :
  outcome (extract w T (os_path.join (os_name w) T (base ++ ".tar.gz"))) =
    inr (os_path.join (os_name w) T base)
  <-> Py.mem_char "." T = false.
Proof.
  split.
  - intros H. destruct (Py.mem_char "." T) eqn:HT; [exfalso|reflexivity].
    destruct (mem_char_first "." T HT) as [a [b [HTab Ha]]].
    rewrite extract_eq, Hos in H. cbn [os_path.join outcome snd] in H.
    rewrite Hext in H. injection H as H.
    rewrite (extract_directory_dotted T base a b Habs HTab Ha Hslash) in H.
    destruct (startswith_slash_absent base "tar.gz" Hslash) as [_ Hs2].
    rewrite (posix_join_relative T base Hs2) in H.
    apply (f_equal String.length) in H.
    rewrite HTab, !length_append in H. cbn [String.length] in H. lia.
  - intros HT. now apply extract_directory_dotfree.
Qed.

Lemma X5_extract_directory_iff_witness :
  (outcome (extract (calm posix "/var/tmp") "/var/tmp"
              (os_path.join posix "/var/tmp" ("boost_1_76_0" ++ ".tar.gz"))) =
     inr "/var/tmp/boost_1_76_0") /\
  (outcome (extract (calm posix "/tmp/my.dir") "/tmp/my.dir"
              (os_path.join posix "/tmp/my.dir" ("boost_1_76_0" ++ ".tar.gz"))) <>
     inr (os_path.join posix "/tmp/my.dir" "boost_1_76_0")).
Proof.
  split.
  - exact (proj2 (X5_extract_directory_iff (calm posix "/var/tmp") "/var/tmp"
                    "boost_1_76_0" eq_refl eq_refl eq_refl eq_refl eq_refl)
                 eq_refl).
  - intros H.
    exact (Bool.diff_true_false
             (proj1 (X5_extract_directory_iff (calm posix "/tmp/my.dir")
                       "/tmp/my.dir" "boost_1_76_0"
                       eq_refl eq_refl eq_refl eq_refl eq_refl) H)).
Defined.

Lemma mem_char_replace_other (x old new : ascii) (s : string) :
  Ascii.eqb new x = false ->
  Py.mem_char x s = false -> Py.mem_char x (Py.replace old new s) = false.
Proof.
  intros Hn. induction s as [|y s IH]; [reflexivity|].
  cbn [Py.mem_char Py.replace]. intros H.
  apply orb_false_elim in H as [Hy Hs]. rewrite (IH Hs), orb_false_r.
  destruct (Ascii.eqb y old); assumption.
Qed.

(** X6. On POSIX, with an absolute temp directory whose path holds no dot
    and a version that holds no slash, every child process of the run is
    started in the temp directory joined with ['boost_'] and the resolved
    version with its dots turned into underscores: the directory the
    archive of that name unpacks to. *)
Theorem X6_children_run_in_versioned_directory (w : World) (args : Namespace)
    (cmd : list string) (shell check : bool) (cwd : string)
    (Hos : os_name w = posix)
    (Habs : Py.startswith (gettempdir w) "/" = true)
    (Hdot : Py.mem_char "." (gettempdir w) = false)
    (Hver : Py.mem_char "/" (args_version args) = false)
    (Hrun : In (Run cmd shell cwd check) (trace (process w args))) :
  cwd = posixpath.join (gettempdir w)
          ("boost_" ++ Py.replace "." "_" (args_version args ++ ".0")).
Proof.
  assert (Hdir : os_path.join (os_name w) (gettempdir w)
                   (dir_name_of (file_name_of w (args_version args))) =
                 posixpath.join (gettempdir w)
                   ("boost_" ++ Py.replace "." "_" (args_version args ++ ".0"))).
  { unfold file_name_of, archive_name, version_with_dots. rewrite Hos.
    cbn [os_path.join].
    set (base := "boost_" ++ Py.replace "." "_" (args_version args ++ ".0")).
    assert (Hb1 : Py.mem_char "." base = false).
    { unfold base. rewrite mem_char_app. cbn [orb].
      change (Py.mem_char "." "boost_") with false.
      apply replace_removes. discriminate. }
    assert (Hb2 : Py.mem_char "/" base = false).
    { unfold base. rewrite mem_char_app.
      change (Py.mem_char "/" "boost_") with false. cbn [orb].
      apply mem_char_replace_other; [reflexivity|].
      now rewrite mem_char_app, Hver. }
    destruct (startswith_slash_absent base "tar.gz" Hb2) as [Hs1 Hs2].
    change ("boost_" ++ Py.replace "." "_" (args_version args ++ ".0") ++ ".tar.gz")
      with ("boost_" ++ (Py.replace "." "_" (args_version args ++ ".0") ++ ".tar.gz")).
    rewrite <- (append_assoc "boost_"). fold base.
    rewrite (posix_join_relative _ _ Hs1).
    set (s := if orb _ _ then _ else _).
    unfold dir_name_of.
    assert (HT' : Py.mem_char "." (gettempdir w ++ s ++ base) = false).
    { rewrite !mem_char_app, Hdot, Hb1. unfold s.
      destruct (orb _ _); reflexivity. }
    replace (gettempdir w ++ s ++ base ++ ".tar.gz")
      with ((gettempdir w ++ s ++ base) ++ String "." "tar.gz")
      by (rewrite !append_assoc; reflexivity).
    rewrite (split_app_sep "." _ _ HT'). cbn [hd].
    rewrite (posix_join_relative _ _ Hs2). fold s.
    unfold posixpath.join.
    now rewrite (startswith_app (gettempdir w) (s ++ base) "/" Habs). }
  apply external_in_plan in Hrun; [|reflexivity].
  unfold plan in Hrun. cbv zeta in Hrun. cbn [In] in Hrun.
  destruct Hrun as [H|[H|[H|[H|[H|[]]]]]]; try discriminate;
    injection H as _ _ <- _; exact Hdir.
Qed.

Lemma X6_children_run_in_versioned_directory_witness :
  "/tmp/boost_1_76_0" =
    posixpath.join "/tmp" ("boost_" ++ Py.replace "." "_" ("1.76" ++ ".0")).
Proof.
  refine (X6_children_run_in_versioned_directory (calm posix "/tmp") args_1_76
            ["sudo"; "./b2"; "install"; "--prefix=/usr/local/boost_1.76.0";
             "-j 8"] false true "/tmp/boost_1_76_0"
            eq_refl eq_refl eq_refl eq_refl _).
  vm_compute. do 16 right. left. reflexivity.
Defined.

(** ** Normalization on POSIX *)

Lemma last_rev {A : Type} (l : list A) (d : A) : last l d = hd d (rev l).
Proof.
  induction l as [|x l IH] using rev_ind; [reflexivity|].
  now rewrite last_last, rev_app_distr.
Qed.

Lemma rev_removelast {A : Type} (l : list A) :
  rev (removelast l) = tl (rev l).
Proof.
  induction l as [|x l IH] using rev_ind; [reflexivity|].
  now rewrite removelast_last, rev_app_distr.
Qed.

Lemma In_removelast {A : Type} (x : A) (l : list A) :
  In x (removelast l) -> In x l.
Proof.
  induction l as [|y l IH] using rev_ind; [tauto|].
  rewrite removelast_last, in_app_iff. tauto.
Qed.

Lemma dotdots_below_tl (st : list string) :
  dotdots_below st -> dotdots_below (tl st).
Proof. destruct st; cbn; tauto. Qed.

Lemma dotdots_below_app (a b : list string) :
  dotdots_below (a ++ b) -> dotdots_below b.
Proof. induction a as [|x a IH]; cbn; tauto. Qed.

Lemma length_zero_nil {A : Type} (l : list A) :
  Nat.eqb (List.length l) 0 = true <-> l = [].
Proof. destruct l; cbn; split; congruence. Qed.

Lemma plain_dotdot : plain "..".
Proof. repeat split; discriminate. Qed.

(** One loop iteration keeps the list built so far normal. *)
Lemma posix_step_normal (i : nat) (acc : list string) (comp : string) :
  normal_comps i acc -> Py.mem_char "/" comp = false ->
  normal_comps i (posixpath.normpath_step i acc comp).
Proof.
  intros (Hp & Hd & Hr) Hc. unfold posixpath.normpath_step.
  destruct (Py.is_empty comp) eqn:He; [now split|]. cbn [orb].
  destruct (String.eqb_spec comp "."); [now split|].
  destruct (String.eqb_spec comp "..") as [->|Hdd]; cbn [negb orb].
  - destruct (orb _ _) eqn:Hcond.
    + apply orb_prop in Hcond as [Hc1|Hc1]; apply andb_prop in Hc1 as [H1 H2].
      * apply length_zero_nil in H2. subst acc.
        apply Nat.eqb_eq in H1. subst i.
        split; [|split].
        -- constructor; [exact plain_dotdot | constructor].
        -- cbn. split; [intros _; constructor | exact I].
        -- intros Hi. now contradiction Hi.
      * apply String.eqb_eq in H2. rewrite last_rev in H2.
        destruct (rev acc) as [|top st] eqn:Hrev; [discriminate|].
        cbn [hd] in H2. subst top.
        assert (Hi : i = 0).
        { destruct (Nat.eq_dec i 0) as [|Hi]; [assumption|].
          exfalso. apply (Hr Hi). apply in_rev. rewrite Hrev. now left. }
        split; [|split].
        -- apply Forall_snoc; [assumption | exact plain_dotdot].
        -- rewrite rev_app_distr, Hrev. cbn [rev app dotdots_below].
           cbn [dotdots_below] in Hd. destruct Hd as [Hall Hd].
           split; [|split; assumption].
           intros _. constructor; [reflexivity | now apply Hall].
        -- intros Hi'. now contradiction Hi'.
    + split; [|split].
      * now apply Forall_removelast.
      * rewrite rev_removelast. now apply dotdots_below_tl.
      * intros Hi Hin. apply (Hr Hi). now apply In_removelast.
  - split; [|split].
    + apply Forall_snoc; [assumption|]. now split.
    + rewrite rev_app_distr. cbn [rev app dotdots_below].
      split; [intros; contradiction | assumption].
    + intros Hi Hin. apply in_app_iff in Hin as [Hin|[Hin|[]]].
      * now apply (Hr Hi).
      * congruence.
Qed.

Lemma posix_fold_normal (i : nat) (comps acc : list string) :
  Forall (fun c => Py.mem_char "/" c = false) comps ->
  normal_comps i acc ->
  normal_comps i (fold_left (posixpath.normpath_step i) comps acc).
Proof.
  revert acc. induction comps as [|c comps IH]; intros acc Hc Hacc.
  - exact Hacc.
  - inversion Hc; subst. cbn [fold_left]. apply IH; [assumption|].
    now apply posix_step_normal.
Qed.

Lemma normal_nil (i : nat) : normal_comps i [].
Proof.
  split; [constructor | split; [exact I | intros _ H; exact H]].
Qed.

(** Folding the loop over a normal list rebuilds that list. *)
Lemma posix_fold_rebuild (i : nat) (l acc : list string) :
  normal_comps i (acc ++ l) ->
  fold_left (posixpath.normpath_step i) l acc = (acc ++ l)%list.
Proof.
  revert acc. induction l as [|c l IH]; intros acc Hn.
  - now rewrite app_nil_r.
  - cbn [fold_left].
    assert (Hstep : posixpath.normpath_step i acc c = (acc ++ [c])%list).
    { destruct Hn as (Hp & Hd & Hr).
      assert (Hc : plain c).
      { rewrite Forall_forall in Hp. apply Hp, in_elt. }
      destruct Hc as (He & _ & Hdot).
      unfold posixpath.normpath_step. rewrite He. cbn [orb].
      destruct (String.eqb_spec c "."); [contradiction|].
      destruct (String.eqb_spec c "..") as [->|]; [|reflexivity].
      cbn [negb orb].
      assert (Hi : i = 0).
      { destruct (Nat.eq_dec i 0) as [|Hi]; [assumption|].
        exfalso. apply (Hr Hi), in_elt. }
      subst i. rewrite rev_app_distr in Hd. cbn [rev] in Hd.
      rewrite <- app_assoc in Hd. apply dotdots_below_app in Hd.
      cbn [app dotdots_below] in Hd. destruct Hd as [Hall _].
      specialize (Hall eq_refl).
      destruct acc as [|a acc'] eqn:Hacc; [reflexivity|].
      rewrite <- Hacc in *. cbn [Nat.eqb andb orb].
      assert (Hlen : Nat.eqb (List.length acc) 0 = false)
        by (rewrite Hacc; reflexivity).
      rewrite Hlen. cbn [andb negb orb].
      rewrite last_rev.
      destruct (rev acc) as [|top st] eqn:Hrev.
      { apply (f_equal (@rev string)) in Hrev.
        rewrite rev_involutive, Hacc in Hrev. discriminate. }
      inversion Hall; subst. reflexivity. }
    rewrite Hstep. rewrite IH; rewrite <- app_assoc; [reflexivity | exact Hn].
Qed.

(** [sep.join(l).split(sep) == l] for a non-empty list of pieces without
    separator. *)
Lemma split_join (sep : ascii) (l : list string) :
  l <> [] -> Forall (fun c => Py.mem_char sep c = false) l ->
  Py.split sep (Py.join (String sep EmptyString) l) = l.
Proof.
  intros Hne Hl. unfold Py.join.
  induction Hl as [|h l Hh Hl IH]; [contradiction|].
  destruct l as [|h' t].
  - cbn [String.concat]. now apply split_absent.
  - change (String.concat (String sep EmptyString) (h :: h' :: t))
      with (h ++ String sep (String.concat (String sep EmptyString) (h' :: t))).
    rewrite (split_app_sep sep h _ Hh). f_equal. apply IH. discriminate.
Qed.

Lemma initial_slashes_cases (p : string) :
  (posixpath.initial_slashes p = 0 /\ Py.startswith p "/" = false) \/
  ((posixpath.initial_slashes p = 1 \/ posixpath.initial_slashes p = 2) /\
   Py.startswith p "/" = true).
Proof.
  unfold posixpath.initial_slashes.
  destruct (Py.startswith p "/"); [right|left; tauto].
  destruct (andb _ _); tauto.
Qed.

Lemma plain_kept (l : list string) :
  Forall plain l ->
  Forall (kept (fun comp => Py.mem_char "/" comp = false)) l.
Proof. apply Forall_impl. intros c (He & Hs & _). now split. Qed.

(** The shape of a normalized path: the initial slashes of the path, then
    normal components joined by single slashes, or [.] when that is
    empty. *)
Lemma posix_normpath_shape (p : string) :
  exists comps,
    normal_comps (posixpath.initial_slashes p) comps /\
    posixpath.normpath p =
      if Py.is_empty (posixpath.repeat_sep (posixpath.initial_slashes p) ++
                      Py.join "/" comps)
      then "."
      else posixpath.repeat_sep (posixpath.initial_slashes p) ++
           Py.join "/" comps.
Proof.
  unfold posixpath.normpath. destruct (Py.is_empty p) eqn:Hp.
  - destruct p; [|discriminate]. exists []. split; [apply normal_nil|].
    reflexivity.
  - cbv zeta.
    exists (fold_left (posixpath.normpath_step (posixpath.initial_slashes p))
              (Py.split posixpath.sep p) []).
    split.
    + apply posix_fold_normal; [apply split_pieces | apply normal_nil].
    + destruct (Nat.eqb_spec (posixpath.initial_slashes p) 0) as [E0|E0];
        [rewrite E0|]; reflexivity.
Qed.

Lemma initial_slashes_rebuilt (i : nat) (J : string) :
  i = 0 \/ i = 1 \/ i = 2 ->
  Py.startswith J "/" = false ->
  posixpath.initial_slashes (posixpath.repeat_sep i ++ J) = i.
Proof.
  intros Hi HJ. unfold posixpath.initial_slashes, Py.startswith in *.
  destruct Hi as [-> | [-> | ->]]; cbn [posixpath.repeat_sep append].
  - now rewrite HJ.
  - unfold posixpath.sep. rewrite !prefix_cons, !Ascii.eqb_refl, !prefix_empty.
    now rewrite HJ.
  - unfold posixpath.sep.
    rewrite !prefix_cons, !Ascii.eqb_refl, !prefix_empty, HJ. reflexivity.
Qed.

Lemma posix_fold_skip_empties (i n : nat) (l : list string) :
  fold_left (posixpath.normpath_step i) (repeat EmptyString n ++ l) [] =
  fold_left (posixpath.normpath_step i) l [].
Proof. induction n as [|n IH]; [reflexivity | exact IH]. Qed.

Lemma split_repeat_sep (n : nat) (J : string) :
  Py.split posixpath.sep (posixpath.repeat_sep n ++ J) =
  (repeat EmptyString n ++ Py.split posixpath.sep J)%list.
Proof.
  induction n as [|n IH]; [reflexivity|].
  cbn [posixpath.repeat_sep append Py.split repeat app].
  now rewrite Ascii.eqb_refl, IH.
Qed.

(** [posixpath.normpath] is idempotent. *)
Lemma posix_normpath_idempotent (p : string) :
  posixpath.normpath (posixpath.normpath p) = posixpath.normpath p.
Proof.
  destruct (posix_normpath_shape p) as (comps & Hn & Hq).
  assert (Hi : posixpath.initial_slashes p = 0 \/
               posixpath.initial_slashes p = 1 \/
               posixpath.initial_slashes p = 2)
    by (destruct (initial_slashes_cases p) as [[H _]|[[H|H] _]]; tauto).
  revert Hn Hq Hi. generalize (posixpath.initial_slashes p). intros i Hn Hq Hi.
  destruct (join_kept "/" comps (plain_kept _ (proj1 Hn))) as [_ HJ].
  rewrite Hq.
  destruct (Py.is_empty (posixpath.repeat_sep i ++ Py.join "/" comps)) eqn:HP;
    [reflexivity|].
  unfold posixpath.normpath. rewrite HP. cbv zeta.
  rewrite (initial_slashes_rebuilt i _ Hi HJ), split_repeat_sep,
    posix_fold_skip_empties.
  assert (Hfold : fold_left (posixpath.normpath_step i)
                    (Py.split posixpath.sep (Py.join "/" comps)) [] = comps).
  { destruct comps as [|c comps'] eqn:Hc; [reflexivity|]. rewrite <- Hc in *.
    assert (Hs : Py.split posixpath.sep (Py.join "/" comps) = comps).
    { apply (split_join "/"); [rewrite Hc; discriminate|].
      eapply Forall_impl; [|exact (proj1 Hn)]. now intros a (_ & Ha & _). }
    rewrite Hs. now apply (posix_fold_rebuild i comps []). }
  rewrite Hfold.
  destruct (Nat.eqb_spec i 0) as [E0|E0]; [subst i|];
    cbn [posixpath.repeat_sep append] in *; now rewrite HP.
Qed.

Lemma posix_normpath_nonempty (p : string) :
  Py.is_empty (posixpath.normpath p) = false.
Proof.
  unfold posixpath.normpath. destruct (Py.is_empty p); [reflexivity|].
  cbv zeta. match goal with |- Py.is_empty (if Py.is_empty ?P then _ else _) = _ =>
    destruct (Py.is_empty P) eqn:E; [reflexivity | exact E] end.
Qed.

(** X7. On POSIX, giving [get_prefix] the path it already normalized
    changes nothing: the prefix argument for [os.path.normpath(p)] is the
    prefix argument for [p]. *)
Theorem X7_get_prefix_stable_on_normalized (w : World) (p version : string)
    (Hos : os_name w = posix)
    (Hne : Py.is_empty p = false) :
  outcome (get_prefix w (Some (os_path.normpath (os_name w) p)) version) =
  outcome (get_prefix w (Some p) version).
Proof.
  rewrite !get_prefix_eq. cbv zeta. cbn [not_path outcome snd].
  rewrite Hos. cbn [os_path.normpath].
  now rewrite posix_normpath_nonempty, Hne, posix_normpath_idempotent.
Qed.

Lemma X7_get_prefix_stable_on_normalized_witness :
  outcome (get_prefix (calm posix "/tmp") (Some "/opt/boost/1.76") "1.76.0") =
  outcome (get_prefix (calm posix "/tmp") (Some "/opt//boost/./x/../1.76/")
             "1.76.0").
Proof.
  exact (X7_get_prefix_stable_on_normalized (calm posix "/tmp")
           "/opt//boost/./x/../1.76/" "1.76.0" eq_refl eq_refl).
Defined.

(** X8. On POSIX the path inside the prefix argument of an explicit path
    [p] is in normal form: it is [.], or the initial slashes of [p] (none,
    one or two) followed by components joined by single slashes, none of
    them empty or [.], where [..] occurs only as leading components and
    never under a root. *)
Theorem X8_prefix_path_normal_form (w : World) (p version : string)
    (Hos : os_name w = posix)
    (Hne : Py.is_empty p = false) :
  exists comps,
    normal_comps (posixpath.initial_slashes p) comps /\
    posixpath.initial_slashes p <= 2 /\
    outcome (get_prefix w (Some p) version) =
      inr ("--prefix=" ++
           match comps with
           | [] => if Nat.eqb (posixpath.initial_slashes p) 0 then "."
                   else posixpath.repeat_sep (posixpath.initial_slashes p)
           | _ => posixpath.repeat_sep (posixpath.initial_slashes p) ++
                  Py.join "/" comps
           end).
Proof.
  destruct (posix_normpath_shape p) as (comps & Hn & Hq).
  exists comps. split; [exact Hn|]. split.
  { destruct (initial_slashes_cases p) as [[H _]|[[H|H] _]]; lia. }
  rewrite get_prefix_eq. cbv zeta. cbn [not_path outcome snd].
  rewrite Hne, Hos. cbn [os_path.normpath]. rewrite Hq. do 2 f_equal.
  destruct comps as [|c comps'].
  - change (Py.join "/" []) with EmptyString. rewrite append_empty_r.
    destruct (initial_slashes_cases p) as [[H _]|[[H|H] _]]; rewrite H;
      reflexivity.
  - destruct Hn as (Hp & _). inversion Hp as [|? ? (Hc & _) _]; subst.
    assert (HP : Py.is_empty
                   (posixpath.repeat_sep (posixpath.initial_slashes p) ++
                    Py.join "/" (c :: comps')) = false).
    { destruct (posixpath.initial_slashes p); [|reflexivity].
      cbn [posixpath.repeat_sep append]. unfold Py.join.
      destruct c; [discriminate|]. now destruct comps'. }
    now rewrite HP.
Qed.

Lemma X8_prefix_path_normal_form_witness :
  exists comps,
    normal_comps 0 comps /\
    outcome (get_prefix (calm posix "/tmp") (Some "../../a/./b//c/../") "1.76.0") =
      inr ("--prefix=" ++ Py.join "/" comps).
Proof.
  destruct (X8_prefix_path_normal_form (calm posix "/tmp")
              "../../a/./b//c/../" "1.76.0" eq_refl eq_refl)
    as (comps & Hn & _ & Ho).
  exists comps. split; [exact Hn|].
  rewrite Ho. destruct comps; [discriminate Ho | reflexivity].
Defined.

(** X9. On POSIX normalization keeps a path relative or absolute as it
    was given: the path inside the prefix argument starts with a slash
    exactly when the explicit path [p] does. *)
Theorem X9_prefix_path_keeps_absoluteness (w : World) (p version : string)
    (Hos : os_name w = posix)
    (Hne : Py.is_empty p = false) :
  exists q,
    outcome (get_prefix w (Some p) version) = inr ("--prefix=" ++ q) /\
    Py.startswith q "/" = Py.startswith p "/".
Proof.
  exists (posixpath.normpath p). split.
  - rewrite get_prefix_eq. cbv zeta. cbn [not_path outcome snd].
    now rewrite Hne, Hos.
  - destruct (posix_normpath_shape p) as (comps & Hn & Hq). rewrite Hq.
    destruct (join_kept "/" comps (plain_kept _ (proj1 Hn))) as [_ HJ].
    destruct (initial_slashes_cases p) as [[H Hs]|[[H|H] Hs]];
      rewrite H, Hs; cbn [posixpath.repeat_sep append].
    + destruct (Py.is_empty (Py.join "/" comps)); [reflexivity | exact HJ].
    + cbn [Py.is_empty]. apply startswith_head.
    + cbn [Py.is_empty]. apply startswith_head.
Qed.

Lemma X9_prefix_path_keeps_absoluteness_witness :
  exists q,
    outcome (get_prefix (calm posix "/tmp") (Some "build//out/") "1.76.0") =
      inr ("--prefix=" ++ q) /\
    Py.startswith q "/" = false.
Proof.
  exact (X9_prefix_path_keeps_absoluteness (calm posix "/tmp") "build//out/"
           "1.76.0" eq_refl eq_refl).
Defined.

(** ** The prefix path is never empty *)

Lemma join_kept_nonempty (R : string -> Prop) (sep : string)
    (c : string) (l : list string) :
  Forall (kept R) (c :: l) -> Py.is_empty (Py.join sep (c :: l)) = false.
Proof.
  intros H. inversion H as [|? ? [Hc _] _]; subst.
  unfold Py.join. destruct c; [discriminate|]. now destruct l.
Qed.

Lemma nt_normpath_nonempty (p : string) :
  Py.is_empty (ntpath.normpath p) = false.
Proof.
  unfold ntpath.normpath.
  destruct (ntpath.splitdrive _) as [drive rest].
  destruct (Py.startswith rest "\").
  - rewrite is_empty_app_cons. cbn [andb].
    rewrite append_assoc. apply is_empty_app_cons.
  - assert (Hk : Forall (kept (fun _ => True))
                   (fold_left (ntpath.normpath_step drive)
                      (Py.split ntpath.sep rest) [])).
    { apply (fold_kept (fun _ => True)).
      - intros acc comp. apply (nt_step_kept (fun _ => True)).
      - apply Forall_forall. intros; exact I.
      - constructor. }
    revert Hk.
    generalize (fold_left (ntpath.normpath_step drive)
                  (Py.split ntpath.sep rest) []).
    intros comps Hk.
    destruct drive as [|d drive']; [|reflexivity].
    cbn [Py.is_empty andb append].
    destruct comps as [|c comps']; [reflexivity|].
    cbn [List.length Nat.eqb].
    exact (join_kept_nonempty _ _ c comps' Hk).
Qed.

(** X10. Whatever the path argument and the version, on either platform,
    [get_prefix] returns ['--prefix='] followed by a non-empty path: the
    prefix argument is never the bare option. *)
Theorem X10_prefix_path_never_empty (w : World) (path : option string)
    (version : string) :
  exists q,
    outcome (get_prefix w path version) = inr ("--prefix=" ++ q) /\
    Py.is_empty q = false.
Proof.
  rewrite get_prefix_eq. cbv zeta. cbn [outcome snd].
  eexists. split; [reflexivity|].
  destruct (os_name w); cbn [os_path.normpath].
  - apply nt_normpath_nonempty.
  - apply posix_normpath_nonempty.
Qed.
